(** * k8s-spark-scheduler: the lazy demand informer and the demand GC

    A shallow embedding of [internal/crd/demand_informer.go] (the
    [LazyDemandInformer]) and of the pod event handler registered by
    [StartDemandGC], together with the properties their specification
    states about them.

    The Go code talks to the cluster and to the Go runtime: it receives
    from a ticker and from [ctx.Done()], queries the API server, waits for
    an informer cache and sleeps between retries.  Each such interaction is
    an effect whose outcome is chosen by an environment [Env]; the program
    is written in a state monad over a [World] that holds the
    [LazyDemandInformer] struct, the number of interactions performed so far
    and the trace of the interactions with their outcomes. *)

From Stdlib Require Import ZArith List String Bool Arith Lia.
Import ListNotations.
Local Open Scope string_scope.
Local Open Scope list_scope.

(** ** Go's [time] package: durations are int64 nanosecond counts *)

Module time.
Definition Duration := Z.
Definition Nanosecond : Duration := 1%Z.
Definition Microsecond : Duration := (1000 * Nanosecond)%Z.
Definition Millisecond : Duration := (1000 * Microsecond)%Z.
Definition Second : Duration := (1000 * Millisecond)%Z.
Definition Minute : Duration := (60 * Second)%Z.

(** [d.Seconds()], for a duration that is a whole number of seconds (Go
    returns it as a float64). *)
Definition Seconds (d : Duration) : Z := (d / Second)%Z.
End time.

(** ** Constants of demand_informer.go *)

Definition informerSyncRetryCount : nat := 5.
Definition informerSyncTimeout : time.Duration := (2 * time.Second)%Z.
Definition informerSyncRetryInitialBackoff : time.Duration :=
  (500 * time.Millisecond)%Z.

(** ** Data *)

(** A Go [error] value; the nil error is [None : option error]. *)
Inductive error : Type :=
| werror (msg : string) (safeParams : list (string * Z))
| apiError (msg : string).

(** A channel of [struct{}] on which nothing is ever sent: all an observer
    can tell is whether it has been closed. *)
Inductive chan : Type := Open | Closed.

(** [sync.RWMutex]. *)
Inductive RWMutex : Type := Unlocked | WLocked | RLocked.

(** The shared informer factory: whether the Demand informer has been
    requested from it and whether [Start] has been called. *)
Record SharedInformerFactory : Type := mkFactory {
  factoryId : nat;
  requested : bool;
  started : bool
}.

(** [v1alpha1.DemandInformer], an interface value; the factory's
    [Scaler().V1alpha1().Demands()] builds one that points back to the
    factory.  The nil interface is [None : option DemandInformer]. *)
Inductive DemandInformer : Type := Demands (factory : nat).

Record LazyDemandInformer : Type := mkLDI {
  informerFactory : SharedInformerFactory;
  apiExtensionsClient : nat;
  demandKubeClient : nat;
  ready : chan;
  informer : option DemandInformer;
  lock : RWMutex
}.

(** ** The environment *)

(** The case a [select] over [ctx.Done()] and the ticker channel takes. *)
Inductive SelectCase : Type := CtxDone | TickC.

Record Env : Type := mkEnv {
  (** [demandapi.DemandCustomResourceDefinitionName()] *)
  demandCRDName : string;
  (** the case taken by the n-th [select] of [Run] *)
  selectCase : nat -> SelectCase;
  (** the [(ready, err)] results of the n-th [CheckCRDExists] call *)
  crdCheck : nat -> bool * option error;
  (** the result of the n-th [WaitForCacheSync] call *)
  cacheSynced : nat -> bool;
  (** the n-th wait of a retrier: [true] when the backoff timer fires,
      [false] when [ctx.Done()] is observed first *)
  backoffElapsed : nat -> bool
}.

(** The interactions of the program with its environment, in the order in
    which they happen, each with the outcome the environment gave. *)
Inductive Event : Type :=
| NewTicker (d : time.Duration)
| TickerStop
| RecvDone
| RecvTick
| CheckCRDExists (name : string) (isReady : bool) (err : option error)
| LogInfo (msg : string)
| LogError (msg : string)
| FactoryStart
| WaitForCacheSync (timeout : time.Duration) (ok : bool)
| RetryWait (initialBackoff : time.Duration) (attempt : nat) (elapsed : bool).

Record World : Type := mkWorld {
  ldi : LazyDemandInformer;
  selects : nat;
  checks : nat;
  syncs : nat;
  waits : nat;
  trace : list Event
}.

(** ** The state monad *)

Definition M (A : Type) : Type := World -> A * World.

Definition ret {A} (a : A) : M A := fun w => (a, w).

Definition bind {A B} (m : M A) (k : A -> M B) : M B :=
  fun w => let (a, w') := m w in k a w'.

Declare Scope go_scope.
Delimit Scope go_scope with go.
Notation "x <- m ;; k" := (bind m (fun x => k))
  (at level 61, m at next level, right associativity) : go_scope.
Notation "m ;; k" := (bind m (fun _ => k))
  (at level 61, right associativity) : go_scope.
Local Open Scope go_scope.

Definition emit (e : Event) : M unit :=
  fun w => (tt, mkWorld (ldi w) (selects w) (checks w) (syncs w) (waits w)
                        (trace w ++ [e])).

Definition getLDI : M LazyDemandInformer := fun w => (ldi w, w).

Definition putLDI (l : LazyDemandInformer) : M unit :=
  fun w => (tt, mkWorld l (selects w) (checks w) (syncs w) (waits w) (trace w)).

Definition setLock (m : RWMutex) : M unit :=
  l <- getLDI ;;
  putLDI (mkLDI (informerFactory l) (apiExtensionsClient l)
                (demandKubeClient l) (ready l) (informer l) m).

Definition setInformer (i : option DemandInformer) : M unit :=
  l <- getLDI ;;
  putLDI (mkLDI (informerFactory l) (apiExtensionsClient l)
                (demandKubeClient l) (ready l) i (lock l)).

Definition setFactory (f : SharedInformerFactory) : M unit :=
  l <- getLDI ;;
  putLDI (mkLDI f (apiExtensionsClient l) (demandKubeClient l) (ready l)
                (informer l) (lock l)).

(** *** github.com/palantir/pkg/retry *)

Module retry.
Record options : Type := mkOptions {
    initialBackoff : time.Duration;
    maxAttempts : nat
  }.

Definition defaultOptions : options :=
    mkOptions (50 * time.Millisecond)%Z 0.

Definition Option := options -> options.

Definition WithMaxAttempts (n : nat) : Option :=
    fun o => mkOptions (initialBackoff o) n.

Definition WithInitialBackoff (d : time.Duration) : Option :=
    fun o => mkOptions d (maxAttempts o).

Definition newOptions (opts : list Option) : options :=
    fold_left (fun o f => f o) opts defaultOptions.

Record retrier : Type := mkRetrier {
    opts : options;
    currentAttempt : nat;
    isReset : bool
  }.

Definition Start (o : options) : retrier := mkRetrier o 0 true.
End retry.

Section Watcher.

Variable env : Env.

(** *** Effects answered by the environment *)

(** [select { case <-ctx.Done(): ... case <-t.C: ... }] *)
Definition selectDoneOrTick : M SelectCase :=
  fun w =>
    let c := selectCase env (selects w) in
    (c, mkWorld (ldi w) (S (selects w)) (checks w) (syncs w) (waits w)
                (trace w ++ [match c with CtxDone => RecvDone | TickC => RecvTick end])).

(** [CheckCRDExists(name, ldi.apiExtensionsClient)], a query to the API
    server whose code is not among the sources: its second and third
    results, whether the CRD is established and the error, are the
    environment's; the first (the CRD object) is discarded by the caller. *)
Definition callCheckCRDExists (name : string) : M (bool * option error) :=
  fun w =>
    let r := crdCheck env (checks w) in
    (r, mkWorld (ldi w) (selects w) (S (checks w)) (syncs w) (waits w)
                (trace w ++ [CheckCRDExists name (fst r) (snd r)])).

(** [clientcache.WaitForCacheSync(ctxWithTimeout.Done(), informer.HasSynced)]
    where [ctxWithTimeout] expires after [timeout]. *)
Definition callWaitForCacheSync (timeout : time.Duration) : M bool :=
  fun w =>
    let ok := cacheSynced env (syncs w) in
    (ok, mkWorld (ldi w) (selects w) (checks w) (S (syncs w)) (waits w)
                 (trace w ++ [WaitForCacheSync timeout ok])).

(** The retrier's wait before attempt number [attempt + 1]: it sleeps for
    the backoff the retry package computes from [initialBackoff] and the
    attempt number, unless the context is done first. *)
Definition retryWait (initialBackoff : time.Duration) (attempt : nat) : M bool :=
  fun w =>
    let b := backoffElapsed env (waits w) in
    (b, mkWorld (ldi w) (selects w) (checks w) (syncs w) (S (waits w))
                (trace w ++ [RetryWait initialBackoff attempt b])).

(** *** The retrier of github.com/palantir/pkg/retry

    [Next] reports whether another attempt is to be made.  The first call
    after [Start] returns at once; a later call gives up when the attempt
    limit is reached, and otherwise waits for the backoff, giving up when
    the context is done before the backoff has elapsed. *)
Definition Next (r : retry.retrier) : M (bool * retry.retrier) :=
  let o := retry.opts r in
  let r' := retry.mkRetrier o (S (retry.currentAttempt r)) false in
  if retry.isReset r then ret (true, r')
  else if negb (retry.maxAttempts o =? 0)%nat
          && (retry.maxAttempts o <=? retry.currentAttempt r)%nat
  then ret (false, r')
  else
    elapsed <- retryWait (retry.initialBackoff o) (retry.currentAttempt r) ;;
    ret (elapsed, r').

(** [for r := Start(ctx, options...); r.Next(); { lastErr = action(); if
    lastErr == nil { return nil } }; return lastErr].  A retrier with an
    attempt limit answers [false] at the latest on its [maxAttempts + 1]-th
    [Next], which bounds the loop; the program builds no other retrier. *)
Fixpoint doLoop (budget : nat) (r : retry.retrier) (lastErr : option error)
         (action : M (option error)) : M (option error) :=
  match budget with
  | 0 => ret lastErr
  | S budget' =>
      p <- Next r ;;
      if fst p then
        err <- action ;;
        match err with
        | None => ret None
        | Some e => doLoop budget' (snd p) (Some e) action
        end
      else ret lastErr
  end.

Definition Do (action : M (option error)) (options : list retry.Option)
  : M (option error) :=
  let o := retry.newOptions options in
  doLoop (S (retry.maxAttempts o)) (retry.Start o) None action.

(** *** demand_informer.go *)

(** The error [werror.ErrorWithContextParams(ctx, "timeout syncing informer",
    werror.SafeParam("timeoutSeconds", informerSyncTimeout.Seconds()))]. *)
Definition timeoutError : error :=
  werror "timeout syncing informer"
         [("timeoutSeconds", time.Seconds informerSyncTimeout)].

Definition NewLazyDemandInformer (informerFactory : SharedInformerFactory)
           (apiExtensionsClient demandKubeClient : nat) : LazyDemandInformer :=
  mkLDI informerFactory apiExtensionsClient demandKubeClient Open None Unlocked.

(** [Informer] returns the informer instance if it is initialized, nil
    otherwise. *)
Definition Informer : M (option DemandInformer) :=
  setLock RLocked ;;
  l <- getLDI ;;
  setLock Unlocked ;;
  ret (informer l).

(** [Ready] returns the channel [ldi.ready]. *)
Definition Ready : M chan :=
  l <- getLDI ;;
  ret (ready l).

(** The function handed to [retry.Do]: one bounded wait for the cache. *)
Definition syncAttempt : M (option error) :=
  ok <- callWaitForCacheSync informerSyncTimeout ;;
  if negb ok then
    ret (Some timeoutError)
  else ret None.

Definition initializeInformer : M (option error) :=
  setLock WLocked ;;
  l <- getLDI ;;
  let f := informerFactory l in
  let informerInterface := Demands (factoryId f) in
  setFactory (mkFactory (factoryId f) true (started f)) ;;
  emit FactoryStart ;;
  setFactory (mkFactory (factoryId f) true true) ;;
  err <- Do syncAttempt
            [retry.WithMaxAttempts informerSyncRetryCount;
             retry.WithInitialBackoff informerSyncRetryInitialBackoff] ;;
  match err with
  | Some e =>
      setLock Unlocked ;;
      ret (Some e)
  | None =>
      setInformer (Some informerInterface) ;;
      setLock Unlocked ;;
      ret None
  end.

Definition checkDemandCRDExists : M bool :=
  r <- callCheckCRDExists (demandCRDName env) ;;
  let isReady := fst r in
  match snd r with
  | Some e =>
      emit (LogInfo "failed to determine if demand CRD exists") ;;
      ret false
  | None =>
      if isReady then
        emit (LogInfo "demand CRD has been initialized. Demand resources can now be created") ;;
        err <- initializeInformer ;;
        match err with
        | Some e =>
            emit (LogError "failed initializing demand informer") ;;
            ret false
        | None => ret isReady
        end
      else ret isReady
  end.

(** The world in which [checkDemandCRDExists], called in [w] when the
    CRD is found ready, calls [initializeInformer]. *)
Definition atInitialize (w : World) : World :=
  mkWorld (ldi w) (selects w) (S (checks w)) (syncs w) (waits w)
    (trace w ++ [CheckCRDExists (demandCRDName env) true None;
                 LogInfo "demand CRD has been initialized. Demand resources can now be created"]).

(** What is known of a call of [Run] after a bounded number of loop
    iterations: it has returned an error value, or it is still in its loop. *)
Inductive Outcome : Type :=
| Returned (err : option error)
| Running.

(** The [for { select { ... } }] of [Run].  The loop need not end, so it
    is unrolled [fuel] times: [Running] means that [fuel] iterations have
    been made and none of them returned. *)
Fixpoint runLoop (fuel : nat) : M Outcome :=
  match fuel with
  | 0 => ret Running
  | S fuel' =>
      c <- selectDoneOrTick ;;
      match c with
      | CtxDone => ret (Returned None)
      | TickC =>
          found <- checkDemandCRDExists ;;
          if found then ret (Returned None) else runLoop fuel'
      end
  end.

(** [t := time.NewTicker(time.Minute); defer t.Stop(); for { ... }] *)
Definition Run (fuel : nat) : M Outcome :=
  emit (NewTicker time.Minute) ;;
  r <- runLoop fuel ;;
  match r with
  | Returned err =>
      emit TickerStop ;;
      ret (Returned err)
  | Running => ret Running
  end.

End Watcher.

(** The world in which a freshly built watcher starts. *)
Definition initWorld (l : LazyDemandInformer) : World :=
  mkWorld l 0 0 0 0 [].

(** ** States the watcher can be in

    The watcher is built by [NewLazyDemandInformer]; afterwards its owner
    runs [Run], whose loop receives from its channels and calls
    [checkDemandCRDExists] (and through it [initializeInformer]), while
    other components call [Informer] and [Ready].  The mutex makes each of
    these calls atomic with respect to the struct.  The index records
    whether some call of [initializeInformer] has returned nil so far;
    [checkDemandCRDExists] answers [true] exactly when the call of
    [initializeInformer] it made returned nil. *)
Inductive reachable (env : Env) : bool -> World -> Prop :=
| reach_new f a d :
    reachable env false (initWorld (NewLazyDemandInformer f a d))
| reach_emit b w e :
    reachable env b w -> reachable env b (snd (emit e w))
| reach_Informer b w :
    reachable env b w -> reachable env b (snd (Informer w))
| reach_Ready b w :
    reachable env b w -> reachable env b (snd (Ready w))
| reach_select b w :
    reachable env b w -> reachable env b (snd (selectDoneOrTick env w))
| reach_initializeInformer b w :
    reachable env b w ->
    reachable env
      (b || match fst (initializeInformer env w) with None => true | Some _ => false end)
      (snd (initializeInformer env w))
| reach_checkDemandCRDExists b w :
    reachable env b w ->
    reachable env (b || fst (checkDemandCRDExists env w))
              (snd (checkDemandCRDExists env w)).

(** [n] consecutive iterations of the loop of [Run], each of which
    received a tick and found [checkDemandCRDExists] false, lead from the
    first world to the second. *)
Inductive retried (env : Env) : nat -> World -> World -> Prop :=
| retried_O w : retried env 0 w w
| retried_S n w w1 w2 w3 :
    selectDoneOrTick env w = (TickC, w1) ->
    checkDemandCRDExists env w1 = (false, w2) ->
    retried env n w2 w3 ->
    retried env (S n) w w3.

(** The events of one kind in a trace. *)
Definition isSyncAttempt (e : Event) : bool :=
  match e with WaitForCacheSync _ _ => true | _ => false end.

Definition isCRDCheck (e : Event) : bool :=
  match e with CheckCRDExists _ _ _ => true | _ => false end.

Definition isNewTicker (e : Event) : bool :=
  match e with NewTicker _ => true | _ => false end.

Definition count (p : Event -> bool) (tr : list Event) : nat :=
  List.length (filter p tr).

(** ** The demand GC (package extender) *)

Module v1.
Record Pod : Type := mkPod {
  Namespace : string;
  Name : string;
  Labels : list (string * string);
  SchedulerName : string;
  NodeName : string
}.
End v1.

(** A call [DeleteDemandIfExists(ctx, demandCache, pod, source)]. *)
Record DeleteDemandCall : Type := mkCall {
  callCtx : nat;
  callCache : nat;
  callPod : v1.Pod;
  callSource : string
}.

(** The events a pod informer delivers to its handlers. *)
Inductive PodEvent : Type :=
| AddEvent (obj : v1.Pod)
| UpdateEvent (oldObj newObj : v1.Pod)
| DeleteEvent (obj : v1.Pod).

(** k8s.io/client-go/tools/cache.  A handler function is modelled by the
    list of [DeleteDemandIfExists] calls it makes, in order. *)
Module clientcache.
Record ResourceEventHandlerFuncs : Type := mkFuncs {
  AddFunc : option (v1.Pod -> list DeleteDemandCall);
  UpdateFunc : option (v1.Pod -> v1.Pod -> list DeleteDemandCall);
  DeleteFunc : option (v1.Pod -> list DeleteDemandCall)
}.

Definition OnAdd (r : ResourceEventHandlerFuncs) (obj : v1.Pod) :=
  match AddFunc r with Some f => f obj | None => [] end.

Definition OnUpdate (r : ResourceEventHandlerFuncs) (oldObj newObj : v1.Pod) :=
  match UpdateFunc r with Some f => f oldObj newObj | None => [] end.

Definition OnDelete (r : ResourceEventHandlerFuncs) (obj : v1.Pod) :=
  match DeleteFunc r with Some f => f obj | None => [] end.

Record FilteringResourceEventHandler : Type := mkFiltering {
  FilterFunc : v1.Pod -> bool;
  Handler : ResourceEventHandlerFuncs
}.

(** [FilteringResourceEventHandler.OnAdd], [OnUpdate] and [OnDelete]: an
    update is passed on as an update only when both objects pass the
    filter; when only the new one does it becomes an add, when only the
    old one does a delete. *)
Definition handle (r : FilteringResourceEventHandler) (ev : PodEvent)
  : list DeleteDemandCall :=
  match ev with
  | AddEvent obj =>
      if FilterFunc r obj then OnAdd (Handler r) obj else []
  | UpdateEvent oldObj newObj =>
      let newer := FilterFunc r newObj in
      let older := FilterFunc r oldObj in
      if newer && older then OnUpdate (Handler r) oldObj newObj
      else if newer && negb older then OnAdd (Handler r) newObj
      else if negb newer && older then OnDelete (Handler r) oldObj
      else []
  | DeleteEvent obj =>
      if FilterFunc r obj then OnDelete (Handler r) obj else []
  end.
End clientcache.

(** A pod informer: the handlers registered with it. *)
Record PodInformer : Type := mkPodInformer {
  handlers : list clientcache.FilteringResourceEventHandler
}.

Definition AddEventHandler (i : PodInformer)
           (h : clientcache.FilteringResourceEventHandler) : PodInformer :=
  mkPodInformer (handlers i ++ [h]).

(** The calls made when the informer delivers an event to its handlers. *)
Definition deliver (i : PodInformer) (ev : PodEvent) : list DeleteDemandCall :=
  flat_map (fun h => clientcache.handle h ev) (handlers i).

Record DemandGC : Type := mkDemandGC {
  demandCache : nat;
  ctx : nat
}.

Module utils.
(** Modelled from the spec: the test [utils.OnPodScheduled] applies to a
    pod is not among the sources; a pod is scheduled when its node
    assignment is present. *)
Definition isPodScheduled (pod : v1.Pod) : bool :=
  negb (v1.NodeName pod =? "")%string.

(** Modelled from the spec: [utils.OnPodScheduled] is not among the
    sources; the handler it builds fires only where the transition
    satisfies "was not scheduled, now is scheduled" (node assignment newly
    present), and then calls the wrapped function on the new pod. *)
Definition OnPodScheduled (fn : v1.Pod -> list DeleteDemandCall)
  : v1.Pod -> v1.Pod -> list DeleteDemandCall :=
  fun oldPod newPod =>
    if negb (isPodScheduled oldPod) && isPodScheduled newPod
    then fn newPod else [].
End utils.

Section Reclaimer.

(** Modelled from the spec: [utils.IsSparkSchedulerPod] is not among the
    sources; the filter admits only pods belonging to this scheduling
    system and is "just a predicate here". *)
Variable IsSparkSchedulerPod : v1.Pod -> bool.

(** Modelled from the spec: [DeleteDemandIfExists] is not among the
    sources; it is an operation of the demand store, so all that is kept
    of a call [DeleteDemandIfExists(ctx, demandCache, pod, source)] is that
    it was made, and with which arguments. *)
Definition DeleteDemandIfExists (c cache : nat) (pod : v1.Pod) (source : string)
  : list DeleteDemandCall :=
  [mkCall c cache pod source].

Definition StartDemandGC (c : nat) (podInformer : PodInformer) (cache : nat)
  : PodInformer :=
  let dgc := mkDemandGC cache c in
  AddEventHandler podInformer
    (clientcache.mkFiltering IsSparkSchedulerPod
       (clientcache.mkFuncs
          None
          (Some (utils.OnPodScheduled (fun pod =>
             DeleteDemandIfExists (ctx dgc) (demandCache dgc) pod "DemandGC")))
          None)).

End Reclaimer.

(** ** Some environments

    A watcher over factory 1, and environments in which it is run below. *)

Definition crdName : string := "demands.scaler.palantir.com".

Definition world0 : World :=
  initWorld (NewLazyDemandInformer (mkFactory 1 false false) 2 3).

(** The CRD is established and the cache syncs at the first attempt. *)
Definition envSynced : Env :=
  mkEnv crdName (fun _ => TickC) (fun _ => (true, None))
        (fun _ => true) (fun _ => true).

(** The CRD is established but the cache never syncs; the context is
    cancelled after the first tick has been handled. *)
Definition envNeverSynced : Env :=
  mkEnv crdName (fun n => match n with 0 => TickC | _ => CtxDone end)
        (fun _ => (true, None)) (fun _ => false) (fun _ => true).

(** The same, with the context cancelled while the retrier waits for the
    first time. *)
Definition envCancelledMidRetry : Env :=
  mkEnv crdName (fun n => match n with 0 => TickC | _ => CtxDone end)
        (fun _ => (true, None)) (fun _ => false) (fun _ => false).

(** The discovery query fails at the first two ticks; the context is
    cancelled before the third. *)
Definition envDiscoveryError : Env :=
  mkEnv crdName (fun n => match n with 0 | 1 => TickC | _ => CtxDone end)
        (fun _ => (false, Some (apiError "connection refused")))
        (fun _ => false) (fun _ => true).

(** The CRD is not there at the first two ticks; the context is cancelled
    before the third. *)
Definition envAbsent : Env :=
  mkEnv crdName (fun n => match n with 0 | 1 => TickC | _ => CtxDone end)
        (fun _ => (false, None)) (fun _ => false) (fun _ => true).

(** The context is cancelled before the ticker fires. *)
Definition envCancelled : Env :=
  mkEnv crdName (fun _ => CtxDone) (fun _ => (false, None))
        (fun _ => false) (fun _ => true).

(** The CRD is absent for three ticks and then established; the cache
    fails to sync twice and syncs at the third attempt. *)
Definition envLate : Env :=
  mkEnv crdName (fun _ => TickC) (fun n => ((3 <=? n)%nat, None))
        (fun n => (2 <=? n)%nat) (fun _ => true).

(** ** What the loop adds to the trace *)

(** The events of the loop of [Run]: all but the creation and the stopping
    of the ticker, which frame it. *)
Definition fromLoop (e : Event) : bool :=
  match e with
  | NewTicker _ | TickerStop => false
  | _ => true
  end.

(** A computation that only appends events of the loop to the trace. *)
Definition quiet {A} (m : M A) : Prop :=
  forall w, exists evs,
    trace (snd (m w)) = trace w ++ evs /\ forallb fromLoop evs = true.

Create HintDb quiet.

(** ** Some pods *)

(** A filter of the kind the scheduler uses: the pod carries a spark-role
    label and names this scheduler. *)
Definition hasSparkRole (pod : v1.Pod) : bool :=
  existsb (fun kv => (fst kv =? "spark-role")%string) (v1.Labels pod)
  && (v1.SchedulerName pod =? "spark-scheduler")%string.

Definition driverPending : v1.Pod :=
  v1.mkPod "jobs" "driver-1" [("spark-role", "driver")] "spark-scheduler" "".

Definition driverBound : v1.Pod :=
  v1.mkPod "jobs" "driver-1" [("spark-role", "driver")] "spark-scheduler" "node-a".

Definition otherBound : v1.Pod :=
  v1.mkPod "jobs" "web-1" [] "default-scheduler" "node-a".

(** ** More kinds of events *)

Definition isRecvTick (e : Event) : bool :=
  match e with RecvTick => true | _ => false end.

Definition isRetryWait (e : Event) : bool :=
  match e with RetryWait _ _ _ => true | _ => false end.

Definition isFactoryStart (e : Event) : bool :=
  match e with FactoryStart => true | _ => false end.

(** The events of the retry loop of [initializeInformer]. *)
Definition isRetryEvent (e : Event) : bool :=
  isSyncAttempt e || isRetryWait e.

(** ** The life of a pod, as its informer reports it *)

(** The update events for a pod that is first seen as [pod] and then in
    the successive versions [versions]. *)
Fixpoint updates (pod : v1.Pod) (versions : list v1.Pod) : list PodEvent :=
  match versions with
  | [] => []
  | next :: versions' => UpdateEvent pod next :: updates next versions'
  end.

(** The calls made when the informer delivers the events one after the
    other. *)
Definition deliverAll (i : PodInformer) (evs : list PodEvent)
  : list DeleteDemandCall :=
  flat_map (deliver i) evs.

(** A pod that has been scheduled stays so in its later versions. *)
Fixpoint staysScheduled (pod : v1.Pod) (versions : list v1.Pod) : bool :=
  match versions with
  | [] => true
  | next :: versions' =>
      implb (utils.isPodScheduled pod) (utils.isPodScheduled next)
      && staysScheduled next versions'
  end.

(** A pod informer whose only handler is the one of the demand GC. *)
Definition demandGCOnly (IsSparkSchedulerPod : v1.Pod -> bool) (c cache : nat)
  : PodInformer :=
  StartDemandGC IsSparkSchedulerPod c (mkPodInformer []) cache.

(** A discovery query that found the CRD established, without error. *)
Definition isReadyCheck (e : Event) : bool :=
  match e with CheckCRDExists _ true None => true | _ => false end.

(** * Properties of the watcher *)

(** The durations of the program are int64 values. *)
Lemma durations_fit_int64 :
  (0 < informerSyncRetryInitialBackoff < informerSyncTimeout)%Z /\
  (informerSyncTimeout < time.Minute < 2 ^ 63)%Z.
Proof. vm_compute. repeat split; reflexivity. Qed.

Section WatcherFacts.

Variable env : Env.

(** ** What the retry loop leaves alone *)

Lemma syncAttempt_ldi w : ldi (snd (syncAttempt env w)) = ldi w.
Proof.
  unfold syncAttempt, bind, callWaitForCacheSync, ret.
  destruct (cacheSynced env (syncs w)); reflexivity.
Qed.

Lemma Next_ldi r w : ldi (snd (Next env r w)) = ldi w.
Proof.
  unfold Next, bind, retryWait, ret.
  destruct (retry.isReset r); [reflexivity|].
  destruct (negb _ && _); reflexivity.
Qed.

Lemma doLoop_ldi budget :
  forall r e w, ldi (snd (doLoop env budget r e (syncAttempt env) w)) = ldi w.
Proof.
  induction budget as [|budget IH]; intros r e w; [reflexivity|].
  cbn [doLoop]. unfold bind at 1.
  destruct (Next env r w) as [p w1] eqn:HN.
  assert (H1 : ldi w1 = ldi w) by (rewrite <- (Next_ldi r w), HN; reflexivity).
  destruct (fst p); [|cbn; exact H1].
  unfold bind.
  destruct (syncAttempt env w1) as [err w2] eqn:HA.
  assert (H2 : ldi w2 = ldi w1) by (rewrite <- (syncAttempt_ldi w1), HA; reflexivity).
  destruct err as [e'|].
  - rewrite IH. congruence.
  - cbn. congruence.
Qed.

Lemma Do_ldi opts w : ldi (snd (Do env (syncAttempt env) opts w)) = ldi w.
Proof. unfold Do. apply doLoop_ldi. Qed.

(** ** [initializeInformer] and the struct *)

(** The struct after [initializeInformer]: the factory has been asked for
    the Demand informer and started, the mutex is free again, the channel
    [ready] is the one it was, and the field [informer] holds the new
    informer when the call returns nil and is untouched otherwise. *)
Lemma initializeInformer_ldi w :
  ldi (snd (initializeInformer env w)) =
  let l := ldi w in
  let id := factoryId (informerFactory l) in
  mkLDI (mkFactory id true true) (apiExtensionsClient l) (demandKubeClient l)
        (ready l)
        (match fst (initializeInformer env w) with
         | None => Some (Demands id)
         | Some _ => informer l
         end)
        Unlocked.
Proof.
  unfold initializeInformer.
  unfold bind, setLock, setFactory, emit, getLDI, putLDI; cbn -[Do].
  match goal with |- context [Do env ?a ?o ?w1] =>
    pose proof (Do_ldi o w1) as HD; destruct (Do env a o w1) as [err w2] end.
  cbn in HD. destruct err as [e|]; cbn; rewrite HD; reflexivity.
Qed.

(** ** [checkDemandCRDExists], case by case *)

Lemma checkDemandCRDExists_eq w :
  checkDemandCRDExists env w =
  match crdCheck env (checks w) with
  | (isReady, Some e) =>
      (false, mkWorld (ldi w) (selects w) (S (checks w)) (syncs w) (waits w)
                (trace w ++ [CheckCRDExists (demandCRDName env) isReady (Some e);
                             LogInfo "failed to determine if demand CRD exists"]))
  | (isReady, None) =>
      if isReady then
        match initializeInformer env (atInitialize env w) with
        | (Some e, w') =>
            (false, snd (emit (LogError "failed initializing demand informer") w'))
        | (None, w') => (true, w')
        end
      else
        (false, mkWorld (ldi w) (selects w) (S (checks w)) (syncs w) (waits w)
                  (trace w ++ [CheckCRDExists (demandCRDName env) false None]))
  end.
Proof.
  unfold checkDemandCRDExists, atInitialize.
  unfold bind at 1. unfold callCheckCRDExists.
  destruct (crdCheck env (checks w)) as [isReady [e|]]; cbn -[initializeInformer].
  - unfold ret. rewrite <- app_assoc. reflexivity.
  - destruct isReady; [|reflexivity].
    unfold bind, emit; cbn -[initializeInformer]. rewrite <- app_assoc. cbn -[initializeInformer].
    destruct (initializeInformer env _) as [[e|] w']; reflexivity.
Qed.

(** ** The loop of [Run], one iteration at a time *)

Lemma select_eq w :
  selectDoneOrTick env w =
  (selectCase env (selects w),
   mkWorld (ldi w) (S (selects w)) (checks w) (syncs w) (waits w)
     (trace w ++ [match selectCase env (selects w) with
                  | CtxDone => RecvDone
                  | TickC => RecvTick
                  end])).
Proof. reflexivity. Qed.

Lemma runLoop_done fuel w :
  selectCase env (selects w) = CtxDone ->
  runLoop env (S fuel) w =
  (Returned None,
   mkWorld (ldi w) (S (selects w)) (checks w) (syncs w) (waits w)
           (trace w ++ [RecvDone])).
Proof.
  intros H. cbn [runLoop]. unfold bind. rewrite select_eq, H. reflexivity.
Qed.

Lemma runLoop_tick fuel w w1 :
  selectDoneOrTick env w = (TickC, w1) ->
  runLoop env (S fuel) w =
  if fst (checkDemandCRDExists env w1)
  then (Returned None, snd (checkDemandCRDExists env w1))
  else runLoop env fuel (snd (checkDemandCRDExists env w1)).
Proof.
  intros H. cbn [runLoop]. unfold bind at 1. rewrite H.
  unfold bind. destruct (checkDemandCRDExists env w1) as [[|] w2]; reflexivity.
Qed.

Lemma runLoop_retry fuel w w1 w2 :
  selectDoneOrTick env w = (TickC, w1) ->
  checkDemandCRDExists env w1 = (false, w2) ->
  runLoop env (S fuel) w = runLoop env fuel w2.
Proof.
  intros H1 H2. rewrite (runLoop_tick fuel w w1 H1), H2. reflexivity.
Qed.

(** After [n] retried iterations the loop is where it would be had it
    been started there. *)
Lemma runLoop_retried n :
  forall w wn fuel,
    retried env n w wn -> runLoop env (n + fuel) w = runLoop env fuel wn.
Proof.
  induction n as [|n IH]; intros w wn fuel H; inversion H; subst.
  - reflexivity.
  - cbn [Nat.add]. erewrite runLoop_retry by eassumption. now apply IH.
Qed.

Lemma select_cases w :
  (selectCase env (selects w) = CtxDone /\
   selectDoneOrTick env w =
     (CtxDone, mkWorld (ldi w) (S (selects w)) (checks w) (syncs w) (waits w)
                       (trace w ++ [RecvDone]))) \/
  (selectCase env (selects w) = TickC /\
   selectDoneOrTick env w =
     (TickC, mkWorld (ldi w) (S (selects w)) (checks w) (syncs w) (waits w)
                     (trace w ++ [RecvTick]))).
Proof.
  rewrite select_eq. destruct (selectCase env (selects w)); [left|right]; split; reflexivity.
Qed.

(** A returning loop made some retried iterations and then one that
    either received from [ctx.Done()] or received a tick and found
    [checkDemandCRDExists] true; it returned nil. *)
Lemma runLoop_returned fuel :
  forall w err w',
    runLoop env fuel w = (Returned err, w') ->
    err = None /\
    exists n wn,
      n < fuel /\ retried env n w wn /\
      (selectDoneOrTick env wn = (CtxDone, w') \/
       exists w1, selectDoneOrTick env wn = (TickC, w1) /\
                  checkDemandCRDExists env w1 = (true, w')).
Proof.
  induction fuel as [|fuel IH]; intros w err w' H; [discriminate|].
  destruct (select_cases w) as [[Hc Hs]|[Hc Hs]].
  - rewrite (runLoop_done fuel w Hc) in H. inversion H; subst.
    split; [reflexivity|]. exists 0, w. repeat split; [lia|constructor|].
    left. exact Hs.
  - rewrite (runLoop_tick fuel w _ Hs) in H.
    destruct (checkDemandCRDExists env _) as [[|] w2] eqn:Hk; cbn in H.
    + inversion H; subst. split; [reflexivity|].
      exists 0, w. repeat split; [lia|constructor|].
      right. eexists. split; eassumption.
    + destruct (IH _ _ _ H) as [He (n & wn & Hn & Hr & Hx)].
      split; [exact He|]. exists (S n), wn. repeat split; [lia| |exact Hx].
      econstructor; eassumption.
Qed.

(** ** When [checkDemandCRDExists] answers [true] *)

Lemma checkDemandCRDExists_true w w' :
  checkDemandCRDExists env w = (true, w') <->
  crdCheck env (checks w) = (true, None) /\
  initializeInformer env (atInitialize env w) = (None, w').
Proof.
  rewrite checkDemandCRDExists_eq.
  destruct (crdCheck env (checks w)) as [isReady [e|]].
  - split; [discriminate|]. intros [H _]. discriminate.
  - destruct isReady.
    + destruct (initializeInformer env (atInitialize env w)) as [[e|] w2].
      * split; [discriminate|]. intros [_ H]. discriminate.
      * split.
        -- intros H. inversion H. split; reflexivity.
        -- intros [_ H]. inversion H. reflexivity.
    + split; [discriminate|]. intros [H _]. discriminate.
Qed.

(** [checkDemandCRDExists] leaves the channel [ready] and the identity of
    the factory alone; the field [informer] is set when it answers [true]
    and is untouched when it answers [false]. *)
Lemma checkDemandCRDExists_ldi w :
  let r := checkDemandCRDExists env w in
  ready (ldi (snd r)) = ready (ldi w) /\
  factoryId (informerFactory (ldi (snd r))) = factoryId (informerFactory (ldi w)) /\
  informer (ldi (snd r)) =
    (if fst r then Some (Demands (factoryId (informerFactory (ldi w))))
     else informer (ldi w)).
Proof.
  cbv zeta. rewrite checkDemandCRDExists_eq.
  destruct (crdCheck env (checks w)) as [isReady [e|]]; [cbn; auto|].
  destruct isReady; [|cbn; auto].
  pose proof (initializeInformer_ldi (atInitialize env w)) as H.
  destruct (initializeInformer env (atInitialize env w)) as [[e|] w2];
    cbn in H |- *; rewrite H; cbn; auto.
Qed.

Lemma runLoop_ready fuel :
  forall w, ready (ldi (snd (runLoop env fuel w))) = ready (ldi w).
Proof.
  induction fuel as [|fuel IH]; intros w; [reflexivity|].
  destruct (select_cases w) as [[Hc Hs]|[Hc Hs]].
  - rewrite (runLoop_done fuel w Hc). reflexivity.
  - rewrite (runLoop_tick fuel w _ Hs).
    match goal with |- context [checkDemandCRDExists env ?w1] =>
      destruct (checkDemandCRDExists_ldi w1) as (Hr & _ & _);
      destruct (checkDemandCRDExists env w1) as [[|] w2] end; cbn in *.
    + exact Hr.
    + rewrite IH. exact Hr.
Qed.

Lemma Run_eq fuel w :
  Run env fuel w =
  let r := runLoop env fuel
             (mkWorld (ldi w) (selects w) (checks w) (syncs w) (waits w)
                      (trace w ++ [NewTicker time.Minute])) in
  match fst r with
  | Returned err =>
      (Returned err,
       mkWorld (ldi (snd r)) (selects (snd r)) (checks (snd r)) (syncs (snd r))
               (waits (snd r)) (trace (snd r) ++ [TickerStop]))
  | Running => (Running, snd r)
  end.
Proof.
  unfold Run, bind, emit. cbv zeta.
  destruct (runLoop env fuel _) as [[err|] w1]; reflexivity.
Qed.

(** An iteration that is retried met neither of the two conditions under
    which the loop returns. *)
Lemma retried_S_inv n w wn :
  retried env (S n) w wn ->
  selectCase env (selects w) = TickC /\
  forall w1,
    selectDoneOrTick env w = (TickC, w1) ->
    ~ (crdCheck env (checks w1) = (true, None) /\
       fst (initializeInformer env (atInitialize env w1)) = None).
Proof.
  intros H. inversion H as [|n' w' w1 w2 w3 Hs Hk Hr]; subst.
  split.
  - rewrite select_eq in Hs. inversion Hs. reflexivity.
  - intros w1' Hs' [Hc Hi]. rewrite Hs in Hs'. inversion Hs'; subst w1'.
    assert (Ht : checkDemandCRDExists env w1
                 = (true, snd (initializeInformer env (atInitialize env w1)))).
    { apply checkDemandCRDExists_true. split; [exact Hc|].
      destruct (initializeInformer env (atInitialize env w1)) as [r wi].
      cbn in Hi |- *. rewrite Hi. reflexivity. }
    rewrite Hk in Ht. discriminate Ht.
Qed.

(** No call of [Run], however long it polls, closes the channel [ready]. *)
Lemma Run_ready fuel w : ready (ldi (snd (Run env fuel w))) = ready (ldi w).
Proof.
  rewrite Run_eq. cbv zeta.
  match goal with |- context [runLoop env fuel ?w0] =>
    pose proof (runLoop_ready fuel w0) as H;
    destruct (runLoop env fuel w0) as [[err|] w1] end; cbn in *; exact H.
Qed.

End WatcherFacts.

Section RetryFacts.
Variable env : Env.

(** ** The retries of [initializeInformer] *)

Ltac unfold_retries :=
  unfold initializeInformer, Do, syncAttempt; cbn;
  unfold bind, callWaitForCacheSync, retryWait, setLock, setFactory,
    setInformer, getLDI, putLDI, emit, ret; cbn.

(** When no wait for the cache succeeds and no backoff is cut short, the
    retrier makes all its attempts. *)
Lemma initializeInformer_exhausted w :
  (forall n, cacheSynced env n = false) ->
  (forall n, backoffElapsed env n = true) ->
  initializeInformer env w =
  (Some timeoutError,
   mkWorld
     (mkLDI (mkFactory (factoryId (informerFactory (ldi w))) true true)
            (apiExtensionsClient (ldi w)) (demandKubeClient (ldi w))
            (ready (ldi w)) (informer (ldi w)) Unlocked)
     (selects w) (checks w) (5 + syncs w) (4 + waits w)
     (trace w ++
      [FactoryStart;
       WaitForCacheSync informerSyncTimeout false;
       RetryWait informerSyncRetryInitialBackoff 1 true;
       WaitForCacheSync informerSyncTimeout false;
       RetryWait informerSyncRetryInitialBackoff 2 true;
       WaitForCacheSync informerSyncTimeout false;
       RetryWait informerSyncRetryInitialBackoff 3 true;
       WaitForCacheSync informerSyncTimeout false;
       RetryWait informerSyncRetryInitialBackoff 4 true;
       WaitForCacheSync informerSyncTimeout false])).
Proof.
  intros Hs Hb. unfold_retries.
  repeat (rewrite ?Hs, ?Hb; cbn).
  repeat rewrite <- app_assoc. reflexivity.
Qed.

(** When the waits for the cache made from [w] on all fail,
    [initializeInformer] returns the timeout error, however the backoffs
    end. *)
Lemma initializeInformer_fails w :
  (forall k, k < informerSyncRetryCount -> cacheSynced env (syncs w + k) = false) ->
  fst (initializeInformer env w) = Some timeoutError.
Proof.
  intros H.
  assert (H0 : cacheSynced env (syncs w) = false)
    by (rewrite <- (Nat.add_0_r (syncs w)); apply H; unfold informerSyncRetryCount; lia).
  assert (H1 : cacheSynced env (S (syncs w)) = false)
    by (replace (S (syncs w)) with (syncs w + 1) by lia; apply H; unfold informerSyncRetryCount; lia).
  assert (H2 : cacheSynced env (S (S (syncs w))) = false)
    by (replace (S (S (syncs w))) with (syncs w + 2) by lia; apply H; unfold informerSyncRetryCount; lia).
  assert (H3 : cacheSynced env (S (S (S (syncs w)))) = false)
    by (replace (S (S (S (syncs w)))) with (syncs w + 3) by lia; apply H; unfold informerSyncRetryCount; lia).
  assert (H4 : cacheSynced env (S (S (S (S (syncs w))))) = false)
    by (replace (S (S (S (S (syncs w))))) with (syncs w + 4) by lia; apply H; unfold informerSyncRetryCount; lia).
  unfold_retries. rewrite H0. cbn.
  destruct (backoffElapsed env (waits w)); cbn; [|reflexivity].
  rewrite H1. cbn.
  destruct (backoffElapsed env (S (waits w))); cbn; [|reflexivity].
  rewrite H2. cbn.
  destruct (backoffElapsed env (S (S (waits w)))); cbn; [|reflexivity].
  rewrite H3. cbn.
  destruct (backoffElapsed env (S (S (S (waits w))))); cbn; [|reflexivity].
  rewrite H4. cbn. reflexivity.
Qed.

End RetryFacts.

Section Quiet.
Variable env : Env.

Lemma quiet_ret A (a : A) : quiet (ret a).
Proof. intros w. exists []. cbn. rewrite app_nil_r. auto. Qed.

Lemma quiet_bind A B (m : M A) (k : A -> M B) :
  quiet m -> (forall a, quiet (k a)) -> quiet (bind m k).
Proof.
  intros Hm Hk w. unfold bind.
  destruct (Hm w) as (evs1 & E1 & F1).
  destruct (m w) as [a w1]. cbn in E1.
  destruct (Hk a w1) as (evs2 & E2 & F2).
  exists (evs1 ++ evs2). split.
  - rewrite E2, E1, app_assoc. reflexivity.
  - rewrite forallb_app, F1, F2. reflexivity.
Qed.

Lemma quiet_emit e : fromLoop e = true -> quiet (emit e).
Proof. intros H w. exists [e]. cbn. rewrite H. auto. Qed.

Lemma quiet_getLDI : quiet getLDI.
Proof. intros w. exists []. cbn. rewrite app_nil_r. auto. Qed.

Lemma quiet_putLDI l : quiet (putLDI l).
Proof. intros w. exists []. cbn. rewrite app_nil_r. auto. Qed.

Lemma quiet_select : quiet (selectDoneOrTick env).
Proof.
  intros w. eexists. split; [reflexivity|].
  cbn. destruct (selectCase env (selects w)); reflexivity.
Qed.

Lemma quiet_callCheckCRDExists name : quiet (callCheckCRDExists env name).
Proof. intros w. eexists. split; reflexivity. Qed.

Lemma quiet_callWaitForCacheSync t : quiet (callWaitForCacheSync env t).
Proof. intros w. eexists. split; reflexivity. Qed.

Lemma quiet_retryWait d n : quiet (retryWait env d n).
Proof. intros w. eexists. split; reflexivity. Qed.

#[local] Hint Resolve quiet_ret quiet_getLDI quiet_putLDI quiet_select
  quiet_callCheckCRDExists quiet_callWaitForCacheSync quiet_retryWait : quiet.

Ltac quiet_step :=
  lazymatch goal with
  | |- quiet (bind _ _) => apply quiet_bind; [|let a := fresh "a" in intros a]
  | |- quiet (emit _) => apply quiet_emit; reflexivity
  | |- _ => solve [auto with quiet]
  end.

Lemma quiet_setLock m : quiet (setLock m).
Proof. unfold setLock. repeat quiet_step. Qed.

Lemma quiet_setInformer i : quiet (setInformer i).
Proof. unfold setInformer. repeat quiet_step. Qed.

Lemma quiet_setFactory f : quiet (setFactory f).
Proof. unfold setFactory. repeat quiet_step. Qed.

#[local] Hint Resolve quiet_setLock quiet_setInformer quiet_setFactory : quiet.

Lemma quiet_syncAttempt : quiet (syncAttempt env).
Proof.
  unfold syncAttempt. apply quiet_bind; [auto with quiet|intros ok].
  destruct (negb ok); quiet_step.
Qed.

Lemma quiet_Next r : quiet (Next env r).
Proof.
  unfold Next. destruct (retry.isReset r); [quiet_step|].
  destruct (negb _ && _); repeat quiet_step.
Qed.

#[local] Hint Resolve quiet_syncAttempt quiet_Next : quiet.

Lemma quiet_doLoop budget :
  forall r e, quiet (doLoop env budget r e (syncAttempt env)).
Proof.
  induction budget as [|budget IH]; intros r e; cbn [doLoop]; [quiet_step|].
  apply quiet_bind; [auto with quiet|intros p].
  destruct (fst p); [|quiet_step].
  apply quiet_bind; [auto with quiet|intros err].
  destruct err; [apply IH|quiet_step].
Qed.

Lemma quiet_initializeInformer : quiet (initializeInformer env).
Proof.
  unfold initializeInformer.
  do 2 (apply quiet_bind; [quiet_step|intros ?]). cbv zeta.
  do 3 (apply quiet_bind; [quiet_step|intros ?]).
  apply quiet_bind; [apply quiet_doLoop|intros err].
  destruct err; repeat quiet_step.
Qed.

Lemma quiet_checkDemandCRDExists : quiet (checkDemandCRDExists env).
Proof.
  unfold checkDemandCRDExists.
  apply quiet_bind; [auto with quiet|intros r].
  destruct (snd r); [repeat quiet_step|].
  destruct (fst r); [|quiet_step].
  apply quiet_bind; [quiet_step|intros _].
  apply quiet_bind; [apply quiet_initializeInformer|intros err].
  destruct err; repeat quiet_step.
Qed.

Lemma quiet_runLoop fuel : quiet (runLoop env fuel).
Proof.
  induction fuel as [|fuel IH]; cbn [runLoop]; [quiet_step|].
  apply quiet_bind; [auto with quiet|intros c].
  destruct c; [quiet_step|].
  apply quiet_bind; [apply quiet_checkDemandCRDExists|intros found].
  destruct found; [quiet_step|exact IH].
Qed.

End Quiet.

Section Handle.

(** ** The readiness channel *)

(** C1, at a run where it fails.  In the run in which the CRD is found at
    the first tick and the cache syncs at the first attempt, [Run] returns
    nil and the informer is published, yet the channel returned by [Ready]
    is still open: the code never closes it, although the specification,
    like the comment on [Ready], has it closed once the informer is
    initialized. *)
Theorem C1_ready_still_open_after_successful_sync :
  let r := Run envSynced 1 world0 in
  fst r = Returned None /\
  fst (Informer (snd r)) = Some (Demands 1) /\
  fst (Ready (snd r)) = Open.
Proof. cbv zeta. split; [|split]; vm_compute; reflexivity. Qed.

(** ** The informer handle *)

Lemma Informer_eq w :
  Informer w =
  (informer (ldi w),
   mkWorld (mkLDI (informerFactory (ldi w)) (apiExtensionsClient (ldi w))
                  (demandKubeClient (ldi w)) (ready (ldi w)) (informer (ldi w))
                  Unlocked)
           (selects w) (checks w) (syncs w) (waits w) (trace w)).
Proof. reflexivity. Qed.

(** In every reachable state the field [informer] is nil when no call of
    [initializeInformer] has returned nil, and the factory's Demand
    informer otherwise. *)
Lemma reachable_informer env b w :
  reachable env b w ->
  informer (ldi w) =
  if b then Some (Demands (factoryId (informerFactory (ldi w)))) else None.
Proof.
  induction 1 as [f a d|b w e H IH|b w H IH|b w H IH|b w H IH|b w H IH|b w H IH].
  - reflexivity.
  - exact IH.
  - exact IH.
  - exact IH.
  - exact IH.
  - rewrite initializeInformer_ldi. cbv zeta. cbn [informer informerFactory factoryId].
    destruct (fst (initializeInformer env w)); cbn.
    + rewrite orb_false_r. exact IH.
    + rewrite orb_true_r. reflexivity.
  - destruct (checkDemandCRDExists_ldi env w) as (_ & Hf & Hi).
    rewrite Hi, Hf. destruct (fst (checkDemandCRDExists env w)).
    + rewrite orb_true_r. reflexivity.
    + rewrite orb_false_r. exact IH.
Qed.

(** C2.  In every reachable state of the watcher, [Informer()] returns nil
    if no call of [initializeInformer] has returned nil so far, and the
    non-nil Demand informer of the factory, the one that call published,
    if one has. *)
Theorem C2_Informer_nil_until_initialized env b w :
  reachable env b w ->
  fst (Informer w) =
  if b then Some (Demands (factoryId (informerFactory (ldi w)))) else None.
Proof.
  intros H. rewrite Informer_eq. cbn [fst]. exact (reachable_informer env b w H).
Qed.

End Handle.

Lemma C2_witness :
  reachable envSynced true (snd (initializeInformer envSynced world0)) /\
  fst (Informer (snd (initializeInformer envSynced world0))) = Some (Demands 1).
Proof.
  assert (H : reachable envSynced true (snd (initializeInformer envSynced world0))).
  { replace true
      with (false || match fst (initializeInformer envSynced world0) with
                     | None => true
                     | Some _ => false
                     end)
      by (vm_compute; reflexivity).
    apply reach_initializeInformer. unfold world0. apply reach_new. }
  split; [exact H|].
  refine (eq_trans (C2_Informer_nil_until_initialized envSynced true _ H) _).
  vm_compute. reflexivity.
Defined.

Section Returning.
Variable env : Env.

(** The worlds [Run] goes through are reachable ones. *)
Lemma runLoop_reachable fuel :
  forall b w, reachable env b w ->
              exists b', reachable env b' (snd (runLoop env fuel w)).
Proof.
  induction fuel as [|fuel IH]; intros b w H.
  - exists b. exact H.
  - pose proof (reach_select env b w H) as Hsel.
    destruct (select_cases env w) as [[Hc Hs]|[Hc Hs]].
    + rewrite (runLoop_done env fuel w Hc). exists b.
      rewrite Hs in Hsel. exact Hsel.
    + rewrite (runLoop_tick env fuel w _ Hs). rewrite Hs in Hsel. cbn [snd] in Hsel.
      pose proof (reach_checkDemandCRDExists env b _ Hsel) as Hchk.
      destruct (fst (checkDemandCRDExists env _)).
      * eexists. exact Hchk.
      * eapply IH. exact Hchk.
Qed.

Lemma Run_reachable fuel b w :
  reachable env b w -> exists b', reachable env b' (snd (Run env fuel w)).
Proof.
  intros H. rewrite Run_eq. cbv zeta.
  destruct (runLoop_reachable fuel b _ (reach_emit env b w (NewTicker time.Minute) H))
    as [b' H'].
  change (snd (emit (NewTicker time.Minute) w))
    with (mkWorld (ldi w) (selects w) (checks w) (syncs w) (waits w)
                  (trace w ++ [NewTicker time.Minute])) in H'.
  destruct (fst (runLoop env fuel _)).
  - exists b'. exact (reach_emit env b' _ TickerStop H').
  - exists b'. exact H'.
Qed.

(** ** When [Run] returns *)

Lemma Run_returned fuel w err w' :
  Run env fuel w = (Returned err, w') ->
  exists wl,
    runLoop env fuel (snd (emit (NewTicker time.Minute) w)) = (Returned err, wl) /\
    w' = snd (emit TickerStop wl).
Proof.
  rewrite Run_eq. cbv zeta.
  change (mkWorld (ldi w) (selects w) (checks w) (syncs w) (waits w)
                  (trace w ++ [NewTicker time.Minute]))
    with (snd (emit (NewTicker time.Minute) w)).
  destruct (runLoop env fuel _) as [[e|] wl]; cbn; intros H; inversion H; subst.
  exists wl. split; reflexivity.
Qed.

Lemma Run_returns fuel w err wl :
  runLoop env fuel (snd (emit (NewTicker time.Minute) w)) = (Returned err, wl) ->
  Run env fuel w = (Returned err, snd (emit TickerStop wl)).
Proof.
  intros H. rewrite Run_eq. cbv zeta.
  change (mkWorld (ldi w) (selects w) (checks w) (syncs w) (waits w)
                  (trace w ++ [NewTicker time.Minute]))
    with (snd (emit (NewTicker time.Minute) w)).
  rewrite H. reflexivity.
Qed.

Lemma Run_nil fuel w err w' :
  Run env fuel w = (Returned err, w') -> err = None.
Proof.
  intros H. destruct (Run_returned fuel w err w' H) as (wl & HL & _).
  exact (proj1 (runLoop_returned env fuel _ _ _ HL)).
Qed.

(** C3.  [Run] returns only from an iteration that received from
    [ctx.Done()], or from one that received a tick at which the CRD was
    found established without error and [initializeInformer] returned nil;
    all iterations before it received a tick and found
    [checkDemandCRDExists] false, so it is the first such iteration; the
    value returned is nil.  And an iteration whose tick meets a discovery
    error, or an error of [initializeInformer], does not end the loop: the
    check answers false and the loop goes on to its next [select]. *)
Theorem C3_Run_returns_only_on_cancel_or_initialized :
  (forall fuel w err w',
      Run env fuel w = (Returned err, w') ->
      err = None /\
      exists n wn wl,
        n < fuel /\
        retried env n (snd (emit (NewTicker time.Minute) w)) wn /\
        (selectDoneOrTick env wn = (CtxDone, wl) \/
         exists w1,
           selectDoneOrTick env wn = (TickC, w1) /\
           crdCheck env (checks w1) = (true, None) /\
           initializeInformer env (atInitialize env w1) = (None, wl)) /\
        w' = snd (emit TickerStop wl)) /\
  (forall fuel w w1,
      selectDoneOrTick env w = (TickC, w1) ->
      (exists isReady e, crdCheck env (checks w1) = (isReady, Some e)) \/
      (crdCheck env (checks w1) = (true, None) /\
       exists e, fst (initializeInformer env (atInitialize env w1)) = Some e) ->
      fst (checkDemandCRDExists env w1) = false /\
      runLoop env (S fuel) w = runLoop env fuel (snd (checkDemandCRDExists env w1))).
Proof.
  split.
  - intros fuel w err w' H.
    destruct (Run_returned fuel w err w' H) as (wl & HL & ->).
    destruct (runLoop_returned env fuel _ _ _ HL) as (He & n & wn & Hn & Hr & Hx).
    split; [exact He|]. exists n, wn, wl. repeat split; try assumption.
    destruct Hx as [Hx|(w1 & Hs & Hk)]; [left; exact Hx|right].
    exists w1. apply checkDemandCRDExists_true in Hk. tauto.
  - intros fuel w w1 Hs Herr.
    assert (Hf : fst (checkDemandCRDExists env w1) = false).
    { rewrite checkDemandCRDExists_eq.
      destruct Herr as [(isReady & e & Hc)|(Hc & e & Hi)]; rewrite Hc.
      - reflexivity.
      - destruct (initializeInformer env (atInitialize env w1)) as [[e'|] w2];
          [reflexivity|discriminate]. }
    split; [exact Hf|].
    rewrite (runLoop_tick env fuel w w1 Hs), Hf. reflexivity.
Qed.

(** C9.  Whatever the environment does, a call of [Run] that returns
    returns nil; and it does return, with nil, from the first iteration
    that receives from [ctx.Done()] and from the first one at which
    [checkDemandCRDExists] answers true. *)
Theorem C9_Run_returns_nil :
  (forall fuel w err w', Run env fuel w = (Returned err, w') -> err = None) /\
  (forall n k w wn wl,
      retried env n (snd (emit (NewTicker time.Minute) w)) wn ->
      selectDoneOrTick env wn = (CtxDone, wl) ->
      Run env (n + S k) w = (Returned None, snd (emit TickerStop wl))) /\
  (forall n k w wn w1 wl,
      retried env n (snd (emit (NewTicker time.Minute) w)) wn ->
      selectDoneOrTick env wn = (TickC, w1) ->
      checkDemandCRDExists env w1 = (true, wl) ->
      Run env (n + S k) w = (Returned None, snd (emit TickerStop wl))).
Proof.
  repeat split.
  - exact Run_nil.
  - intros n k w wn wl Hr Hs. apply Run_returns.
    rewrite (runLoop_retried env n _ wn (S k) Hr).
    cbn [runLoop]. unfold bind. rewrite Hs. reflexivity.
  - intros n k w wn w1 wl Hr Hs Hk. apply Run_returns.
    rewrite (runLoop_retried env n _ wn (S k) Hr).
    rewrite (runLoop_tick env k wn w1 Hs), Hk. reflexivity.
Qed.

End Returning.

Lemma C3_witness :
  Run envLate 4 world0 = (Returned None, snd (Run envLate 4 world0)) /\
  (@None error = None /\
   exists n wn wl,
     n < 4 /\
     retried envLate n (snd (emit (NewTicker time.Minute) world0)) wn /\
     (selectDoneOrTick envLate wn = (CtxDone, wl) \/
      exists w1,
        selectDoneOrTick envLate wn = (TickC, w1) /\
        crdCheck envLate (checks w1) = (true, None) /\
        initializeInformer envLate (atInitialize envLate w1) = (None, wl)) /\
     snd (Run envLate 4 world0) = snd (emit TickerStop wl)).
Proof.
  assert (H : Run envLate 4 world0 = (Returned None, snd (Run envLate 4 world0)))
    by (vm_compute; reflexivity).
  split; [exact H|].
  exact (proj1 (C3_Run_returns_only_on_cancel_or_initialized envLate)
               4 world0 None (snd (Run envLate 4 world0)) H).
Defined.

Lemma C9_witness :
  Run envCancelled 1 world0 = (Returned None, snd (Run envCancelled 1 world0)) /\
  @None error = None.
Proof.
  assert (H : Run envCancelled 1 world0
               = (Returned None, snd (Run envCancelled 1 world0)))
    by (vm_compute; reflexivity).
  split; [exact H|].
  exact (proj1 (C9_Run_returns_nil envCancelled)
               1 world0 None (snd (Run envCancelled 1 world0)) H).
Defined.

Section Polling.
Variable env : Env.

(** ** Retries that all fail *)

Lemma checkDemandCRDExists_init_error w e w' :
  crdCheck env (checks w) = (true, None) ->
  initializeInformer env (atInitialize env w) = (Some e, w') ->
  checkDemandCRDExists env w =
  (false, snd (emit (LogError "failed initializing demand informer") w')).
Proof.
  intros Hc Hi. rewrite checkDemandCRDExists_eq, Hc, Hi. reflexivity.
Qed.

(** C4, for a context that is not cancelled during the retries.  When no
    wait for the cache succeeds and no wait of the retrier is cut short by
    [ctx.Done()], a call of [initializeInformer] makes exactly 5 attempts,
    each a [WaitForCacheSync] under a 2-second timeout, with a wait of the
    retrier, set up with an initial backoff of 500ms, between consecutive
    attempts; it then returns the timeout error and leaves the field
    [informer] alone, so that [checkDemandCRDExists] answers false and the
    loop of [Run] goes on to its next [select]. *)
Theorem C4_five_attempts_then_error w :
  (forall n, cacheSynced env n = false) ->
  (forall n, backoffElapsed env n = true) ->
  let r := initializeInformer env w in
  fst r = Some timeoutError /\
  trace (snd r) =
    trace w ++
    [FactoryStart;
     WaitForCacheSync informerSyncTimeout false;
     RetryWait informerSyncRetryInitialBackoff 1 true;
     WaitForCacheSync informerSyncTimeout false;
     RetryWait informerSyncRetryInitialBackoff 2 true;
     WaitForCacheSync informerSyncTimeout false;
     RetryWait informerSyncRetryInitialBackoff 3 true;
     WaitForCacheSync informerSyncTimeout false;
     RetryWait informerSyncRetryInitialBackoff 4 true;
     WaitForCacheSync informerSyncTimeout false] /\
  count isSyncAttempt (trace (snd r)) = count isSyncAttempt (trace w) + 5 /\
  syncs (snd r) = informerSyncRetryCount + syncs w /\
  informerSyncRetryCount = 5 /\
  informerSyncTimeout = (2 * 1000000000)%Z /\
  informerSyncRetryInitialBackoff = (500 * 1000000)%Z /\
  informer (ldi (snd r)) = informer (ldi w) /\
  (forall fuel w0 w1,
      selectDoneOrTick env w0 = (TickC, w1) ->
      crdCheck env (checks w1) = (true, None) ->
      w = atInitialize env w1 ->
      fst (checkDemandCRDExists env w1) = false /\
      runLoop env (S fuel) w0 =
      runLoop env fuel (snd (emit (LogError "failed initializing demand informer") (snd r)))).
Proof.
  intros Hs Hb r. subst r.
  rewrite (initializeInformer_exhausted env w Hs Hb). cbn [fst snd trace syncs ldi informer].
  do 2 (split; [reflexivity|]).
  split; [unfold count; rewrite filter_app, length_app; reflexivity|].
  repeat (split; [reflexivity|]).
  intros fuel w0 w1 Hsel Hc ->.
  pose proof (checkDemandCRDExists_init_error w1 _ _ Hc
                (initializeInformer_exhausted env _ Hs Hb)) as Hk.
  split; [rewrite Hk; reflexivity|].
  rewrite (runLoop_tick env fuel w0 w1 Hsel), Hk. reflexivity.
Qed.

(** C6.  When every wait for the cache that a tick can make fails, the
    watcher is not marked ready: [checkDemandCRDExists] answers false, the
    field [informer] and the channel [ready] are what they were (nil and
    open if they were), [initializeInformer], if the CRD was found, returns
    an error, and the loop of [Run] neither returns nor stops but goes on
    to its next [select]. *)
Theorem C6_failed_sync_keeps_polling w :
  (forall k, k < informerSyncRetryCount -> cacheSynced env (syncs w + k) = false) ->
  let r := checkDemandCRDExists env w in
  fst r = false /\
  informer (ldi (snd r)) = informer (ldi w) /\
  ready (ldi (snd r)) = ready (ldi w) /\
  fst (Ready (snd r)) = fst (Ready w) /\
  (crdCheck env (checks w) = (true, None) ->
   fst (initializeInformer env (atInitialize env w)) = Some timeoutError) /\
  (forall fuel w0,
      selectDoneOrTick env w0 = (TickC, w) ->
      runLoop env (S fuel) w0 = runLoop env fuel (snd r)).
Proof.
  intros H r.
  pose proof (initializeInformer_fails env (atInitialize env w) H) as Hi.
  assert (Hf : fst r = false).
  { subst r. rewrite checkDemandCRDExists_eq.
    destruct (crdCheck env (checks w)) as [isReady [e|]]; [reflexivity|].
    destruct isReady; [|reflexivity].
    destruct (initializeInformer env (atInitialize env w)) as [[e|] w2];
      [reflexivity|discriminate]. }
  destruct (checkDemandCRDExists_ldi env w) as (Hr & _ & Hinf).
  fold r in Hr, Hinf. rewrite Hf in Hinf.
  split; [exact Hf|]. split; [exact Hinf|]. split; [exact Hr|].
  split; [exact Hr|]. split; [intros _; exact Hi|].
  intros fuel w0 Hsel.
  rewrite (runLoop_tick env fuel w0 w Hsel). fold r. rewrite Hf. reflexivity.
Qed.

(** ** Discovery errors and absent CRDs *)

(** C7.  When the discovery query returns an error, the check of that
    tick logs it and answers false; nothing else happens (the struct and
    the counts of cache waits and retrier waits are untouched, so
    [initializeInformer] was not attempted); the loop of [Run] goes on to
    its next [select], at whose tick the query is made again; and [Run]
    never returns the error, or any other. *)
Theorem C7_discovery_error_is_transient w isReady e :
  crdCheck env (checks w) = (isReady, Some e) ->
  let w' := mkWorld (ldi w) (selects w) (S (checks w)) (syncs w) (waits w)
              (trace w ++
               [CheckCRDExists (demandCRDName env) isReady (Some e);
                LogInfo "failed to determine if demand CRD exists"]) in
  checkDemandCRDExists env w = (false, w') /\
  (forall fuel w0,
      selectDoneOrTick env w0 = (TickC, w) ->
      runLoop env (S fuel) w0 = runLoop env fuel w') /\
  (forall fuel w0 w1,
      selectDoneOrTick env w0 = (TickC, w) ->
      selectDoneOrTick env w' = (TickC, w1) ->
      runLoop env (S (S fuel)) w0 =
      (if fst (checkDemandCRDExists env w1)
       then (Returned None, snd (checkDemandCRDExists env w1))
       else runLoop env fuel (snd (checkDemandCRDExists env w1))) /\
      checks w1 = S (checks w)) /\
  (forall fuel w0 err w1, Run env fuel w0 = (Returned err, w1) -> err = None).
Proof.
  intros Hc w'.
  assert (Hk : checkDemandCRDExists env w = (false, w'))
    by (rewrite checkDemandCRDExists_eq, Hc; reflexivity).
  split; [exact Hk|]. split; [|split].
  - intros fuel w0 Hsel. exact (runLoop_retry env fuel w0 w w' Hsel Hk).
  - intros fuel w0 w1 Hsel Hsel'. split.
    + rewrite (runLoop_retry env (S fuel) w0 w w' Hsel Hk).
      exact (runLoop_tick env fuel w' w1 Hsel').
    + rewrite select_eq in Hsel'. inversion Hsel'. reflexivity.
  - intros fuel w0 err w1 H.
    exact (Run_nil env fuel w0 err w1 H).
Qed.

(** ** Polling *)

Lemma fromLoop_not_NewTicker evs :
  forallb fromLoop evs = true -> count isNewTicker evs = 0.
Proof.
  unfold count. induction evs as [|e evs IH]; [reflexivity|].
  cbn. intros H. apply andb_prop in H. destruct H as [He Hevs].
  destruct e; try discriminate; cbn; auto.
Qed.

(** C8.  [Run] polls on one ticker, created with a period of a minute,
    that is 60 seconds, before the loop starts; at a tick where the CRD is
    found absent, without error, the check makes the discovery query and
    nothing else, answers false, and the loop goes on to wait in its next
    [select]; and at each iteration, whatever came before, a [select]
    that receives from [ctx.Done()] makes the loop return nil at once.
    Both hold of [Run] itself: after any number of retried iterations, a
    tick at which the CRD is absent leaves [Run] running, having made the
    discovery query and done nothing else, and ready for its next
    [select]; and a [select] that receives from [ctx.Done()] makes [Run]
    stop its ticker and return nil. *)
Theorem C8_polls_every_minute_until_cancelled :
  time.Minute = (60 * 1000000000)%Z /\
  (forall fuel w, exists evs,
      trace (snd (Run env fuel w)) = trace w ++ NewTicker time.Minute :: evs /\
      count isNewTicker evs = 0) /\
  (forall w,
      crdCheck env (checks w) = (false, None) ->
      let w' := mkWorld (ldi w) (selects w) (S (checks w)) (syncs w) (waits w)
                  (trace w ++ [CheckCRDExists (demandCRDName env) false None]) in
      checkDemandCRDExists env w = (false, w') /\
      forall fuel w0,
        selectDoneOrTick env w0 = (TickC, w) ->
        runLoop env (S fuel) w0 = runLoop env fuel w') /\
  (forall n fuel w wn,
      retried env n w wn ->
      selectCase env (selects wn) = CtxDone ->
      runLoop env (n + S fuel) w =
      (Returned None,
       mkWorld (ldi wn) (S (selects wn)) (checks wn) (syncs wn) (waits wn)
               (trace wn ++ [RecvDone]))) /\
  (forall n fuel w wn w1,
      retried env n (snd (emit (NewTicker time.Minute) w)) wn ->
      selectDoneOrTick env wn = (TickC, w1) ->
      crdCheck env (checks w1) = (false, None) ->
      let w' := mkWorld (ldi w1) (selects w1) (S (checks w1)) (syncs w1) (waits w1)
                  (trace w1 ++ [CheckCRDExists (demandCRDName env) false None]) in
      Run env (n + 1) w = (Running, w') /\
      Run env (n + S fuel) w =
      match fst (runLoop env fuel w') with
      | Returned err =>
          (Returned err, snd (emit TickerStop (snd (runLoop env fuel w'))))
      | Running => (Running, snd (runLoop env fuel w'))
      end) /\
  (forall n fuel w wn,
      retried env n (snd (emit (NewTicker time.Minute) w)) wn ->
      selectCase env (selects wn) = CtxDone ->
      Run env (n + S fuel) w =
      (Returned None,
       mkWorld (ldi wn) (S (selects wn)) (checks wn) (syncs wn) (waits wn)
               (trace wn ++ [RecvDone; TickerStop]))).
Proof.
  split; [reflexivity|]. split; [|split; [|split; [|split]]].
  - intros fuel w. rewrite Run_eq. cbv zeta.
    match goal with |- context [runLoop env fuel ?w0] =>
      destruct (quiet_runLoop env fuel w0) as (evs & E & F);
      destruct (runLoop env fuel w0) as [[err|] w1] end;
      cbn [fst snd trace] in *.
    + exists (evs ++ [TickerStop]). split.
      * rewrite E, <- !app_assoc. reflexivity.
      * unfold count. rewrite filter_app, length_app.
        fold (count isNewTicker evs). rewrite (fromLoop_not_NewTicker evs F). reflexivity.
    + exists evs. split.
      * rewrite E, <- app_assoc. reflexivity.
      * exact (fromLoop_not_NewTicker evs F).
  - intros w Hc w'.
    assert (Hk : checkDemandCRDExists env w = (false, w'))
      by (rewrite checkDemandCRDExists_eq, Hc; reflexivity).
    split; [exact Hk|].
    intros fuel w0 Hsel. exact (runLoop_retry env fuel w0 w w' Hsel Hk).
  - intros n fuel w wn Hr Hc.
    rewrite (runLoop_retried env n w wn (S fuel) Hr).
    exact (runLoop_done env fuel wn Hc).
  - intros n fuel w wn w1 Hr Hsel Hc w'.
    assert (Hk : checkDemandCRDExists env w1 = (false, w'))
      by (rewrite checkDemandCRDExists_eq, Hc; reflexivity).
    assert (HL : forall k,
               runLoop env (n + S k) (snd (emit (NewTicker time.Minute) w))
               = runLoop env k w').
    { intros k. rewrite (runLoop_retried env n _ wn (S k) Hr).
      exact (runLoop_retry env k wn w1 w' Hsel Hk). }
    assert (HR : forall k,
               Run env (n + S k) w =
               match fst (runLoop env k w') with
               | Returned err =>
                   (Returned err, snd (emit TickerStop (snd (runLoop env k w'))))
               | Running => (Running, snd (runLoop env k w'))
               end).
    { intros k. rewrite Run_eq. cbv zeta.
      change (mkWorld (ldi w) (selects w) (checks w) (syncs w) (waits w)
                      (trace w ++ [NewTicker time.Minute]))
        with (snd (emit (NewTicker time.Minute) w)).
      rewrite (HL k). reflexivity. }
    split; [exact (HR 0)|exact (HR fuel)].
  - intros n fuel w wn Hr Hc.
    rewrite Run_eq. cbv zeta.
    change (mkWorld (ldi w) (selects w) (checks w) (syncs w) (waits w)
                    (trace w ++ [NewTicker time.Minute]))
      with (snd (emit (NewTicker time.Minute) w)).
    rewrite (runLoop_retried env n _ wn (S fuel) Hr).
    rewrite (runLoop_done env fuel wn Hc). cbn. rewrite <- app_assoc. reflexivity.
Qed.

(** C10.  After creating the ticker, the first thing [Run] does is to
    receive, from [ctx.Done()] or from the ticker: no discovery query
    precedes the first tick.  And when the context is cancelled before
    the ticker has fired, so that this first [select] receives from
    [ctx.Done()], [Run] returns nil having made no discovery query at all. *)
Theorem C10_no_check_before_first_tick :
  (forall fuel w, exists evs,
      trace (snd (Run env fuel w)) = trace w ++ NewTicker time.Minute :: evs /\
      (evs = [] \/ evs = [RecvDone; TickerStop] \/
       exists evs', evs = RecvTick :: evs')) /\
  (forall fuel w,
      selectCase env (selects w) = CtxDone ->
      Run env (S fuel) w =
      (Returned None,
       mkWorld (ldi w) (S (selects w)) (checks w) (syncs w) (waits w)
               (trace w ++ [NewTicker time.Minute; RecvDone; TickerStop])) /\
      checks (snd (Run env (S fuel) w)) = checks w /\
      count isCRDCheck (trace (snd (Run env (S fuel) w))) =
      count isCRDCheck (trace w)).
Proof.
  assert (Hdone : forall fuel w,
             selectCase env (selects w) = CtxDone ->
             Run env (S fuel) w =
             (Returned None,
              mkWorld (ldi w) (S (selects w)) (checks w) (syncs w) (waits w)
                      (trace w ++ [NewTicker time.Minute; RecvDone; TickerStop]))).
  { intros fuel w Hc. rewrite Run_eq. cbv zeta.
    rewrite runLoop_done by exact Hc. cbn. rewrite <- !app_assoc. reflexivity. }
  split.
  - intros [|fuel] w.
    + exists []. split; [reflexivity|]. left. reflexivity.
    + destruct (selectCase env (selects w)) eqn:Hc.
      * rewrite (Hdone fuel w Hc). eexists. split; [reflexivity|].
        right. left. reflexivity.
      * rewrite Run_eq. cbv zeta.
        match goal with |- context [runLoop env (S fuel) ?w0] =>
          assert (Hs : selectDoneOrTick env w0 =
                       (TickC, mkWorld (ldi w0) (S (selects w0)) (checks w0) (syncs w0)
                                       (waits w0) (trace w0 ++ [RecvTick])))
            by (rewrite select_eq; cbn [selects]; rewrite Hc; reflexivity);
          rewrite (runLoop_tick env fuel w0 _ Hs)
        end.
        match goal with |- context [checkDemandCRDExists env ?w1] =>
          destruct (quiet_checkDemandCRDExists env w1) as (evs1 & E1 & _);
          destruct (checkDemandCRDExists env w1) as [[|] w2] end;
          cbn [fst snd trace] in *.
        -- exists (RecvTick :: evs1 ++ [TickerStop]). split.
           ++ rewrite E1, <- !app_assoc. reflexivity.
           ++ right. right. eexists. reflexivity.
        -- match goal with |- context [runLoop env fuel ?w2] =>
             destruct (quiet_runLoop env fuel w2) as (evs2 & E2 & _);
             destruct (runLoop env fuel w2) as [[err|] w3] end;
             cbn [fst snd trace] in *.
           ++ exists (RecvTick :: evs1 ++ evs2 ++ [TickerStop]). split.
              ** rewrite E2, E1, <- !app_assoc. reflexivity.
              ** right. right. eexists. reflexivity.
           ++ exists (RecvTick :: evs1 ++ evs2). split.
              ** rewrite E2, E1, <- !app_assoc. reflexivity.
              ** right. right. eexists. reflexivity.
  - intros fuel w Hc. rewrite (Hdone fuel w Hc). cbn [snd checks trace].
    split; [reflexivity|]. split; [reflexivity|].
    unfold count. rewrite filter_app. cbn. rewrite app_nil_r. reflexivity.
Qed.

End Polling.

Section ReclaimerFacts.

Variable IsSparkSchedulerPod : v1.Pod -> bool.
Variables (c cache : nat).

Lemma deliver_StartDemandGC podInformer ev :
  deliver (StartDemandGC IsSparkSchedulerPod c podInformer cache) ev =
  deliver podInformer ev ++
  deliver (StartDemandGC IsSparkSchedulerPod c (mkPodInformer []) cache) ev.
Proof.
  unfold deliver, StartDemandGC, AddEventHandler. cbn [handlers].
  rewrite flat_map_app. reflexivity.
Qed.

(** C5.  Of the events a pod informer delivers, the handler registered by
    [StartDemandGC] answers an update whose old and new pod both pass the
    filter and whose old pod is not scheduled while the new one is with
    exactly one call of [DeleteDemandIfExists], for the new pod and with
    the source "DemandGC"; it makes no call for any other event: not for
    an add, not for a delete, not for an update of a pod the filter
    rejects, not for an update whose old pod was already scheduled or
    whose new pod is not. *)
Theorem C5_one_delete_per_scheduling_update ev :
  let calls := deliver (StartDemandGC IsSparkSchedulerPod c (mkPodInformer []) cache) ev in
  (exists oldPod newPod,
      ev = UpdateEvent oldPod newPod /\
      IsSparkSchedulerPod oldPod = true /\
      IsSparkSchedulerPod newPod = true /\
      utils.isPodScheduled oldPod = false /\
      utils.isPodScheduled newPod = true /\
      calls = [mkCall c cache newPod "DemandGC"]) \/
  ((forall oldPod newPod,
       ev = UpdateEvent oldPod newPod ->
       IsSparkSchedulerPod oldPod = false \/
       IsSparkSchedulerPod newPod = false \/
       utils.isPodScheduled oldPod = true \/
       utils.isPodScheduled newPod = false) /\
   calls = []).
Proof.
  cbv zeta. unfold deliver, StartDemandGC, AddEventHandler.
  cbn [handlers app flat_map]. rewrite app_nil_r.
  destruct ev as [obj|oldObj newObj|obj].
  - right. split; [discriminate|].
    cbn. destruct (IsSparkSchedulerPod obj); reflexivity.
  - cbn. unfold clientcache.OnUpdate, clientcache.OnAdd, clientcache.OnDelete,
      utils.OnPodScheduled, DeleteDemandIfExists. cbn.
    destruct (IsSparkSchedulerPod newObj) eqn:Hn;
      destruct (IsSparkSchedulerPod oldObj) eqn:Ho; cbn;
      try (right; split; [intros o n E; inversion E; subst; auto|reflexivity]).
    destruct (utils.isPodScheduled oldObj) eqn:So; cbn;
      [right; split; [intros o n E; inversion E; subst; auto|reflexivity]|].
    destruct (utils.isPodScheduled newObj) eqn:Sn; cbn;
      [|right; split; [intros o n E; inversion E; subst; auto|reflexivity]].
    left. exists oldObj, newObj. repeat split; assumption.
  - right. split; [discriminate|].
    cbn. destruct (IsSparkSchedulerPod obj); reflexivity.
Qed.

End ReclaimerFacts.

(** The scheduling of a managed pod triggers the call; an update of a pod
    of another scheduler, or of a pod that was already bound, does not. *)
Example deliver_scheduled :
  deliver (StartDemandGC hasSparkRole 7 (mkPodInformer []) 9)
          (UpdateEvent driverPending driverBound)
  = [mkCall 7 9 driverBound "DemandGC"].
Proof. reflexivity. Qed.

Example deliver_already_bound :
  deliver (StartDemandGC hasSparkRole 7 (mkPodInformer []) 9)
          (UpdateEvent driverBound driverBound) = [].
Proof. reflexivity. Qed.

Example deliver_unmanaged :
  deliver (StartDemandGC hasSparkRole 7 (mkPodInformer []) 9)
          (UpdateEvent otherBound otherBound) = [] /\
  deliver (StartDemandGC hasSparkRole 7 (mkPodInformer []) 9)
          (AddEvent driverBound) = [] /\
  deliver (StartDemandGC hasSparkRole 7 (mkPodInformer []) 9)
          (DeleteEvent driverBound) = [].
Proof. repeat split. Qed.

(** * The theorems at work in the example environments *)

(** The scenario of the specification: the CRD appears at the fourth tick
    and the cache syncs at the third attempt.  [Run] returns nil after
    four ticks and three waits for the cache; the informer is published
    and the channel [ready] is open. *)
Example late_scenario :
  let r := Run envLate 4 world0 in
  fst r = Returned None /\
  selects (snd r) = 4 /\ syncs (snd r) = 3 /\
  informer (ldi (snd r)) = Some (Demands 1) /\
  ready (ldi (snd r)) = Open.
Proof. vm_compute. repeat split; reflexivity. Qed.

Lemma C4_witness :
  (forall n, cacheSynced envNeverSynced n = false) /\
  (forall n, backoffElapsed envNeverSynced n = true) /\
  fst (initializeInformer envNeverSynced world0) = Some timeoutError /\
  syncs (snd (initializeInformer envNeverSynced world0)) = 5.
Proof.
  pose proof (C4_five_attempts_then_error envNeverSynced world0
                (fun _ => eq_refl) (fun _ => eq_refl)) as H.
  cbv zeta in H. destruct H as (H1 & _ & _ & H3 & _).
  split; [intros n; reflexivity|]. split; [intros n; reflexivity|].
  split; [exact H1|exact H3].
Defined.

(** C4 does not hold of every context.  With a cache that never syncs and
    a context cancelled while the retrier waits for the first time,
    [initializeInformer] makes one attempt, not five. *)
Lemma C4_counterexample :
  (forall n, cacheSynced envCancelledMidRetry n = false) /\
  count isSyncAttempt (trace (snd (initializeInformer envCancelledMidRetry world0))) = 1 /\
  ~ (forall env w,
        (forall n, cacheSynced env n = false) ->
        count isSyncAttempt (trace (snd (initializeInformer env w))) =
        count isSyncAttempt (trace w) + 5).
Proof.
  split; [intros n; reflexivity|]. split; [vm_compute; reflexivity|].
  intros H. specialize (H envCancelledMidRetry world0 (fun _ => eq_refl)).
  vm_compute in H. discriminate H.
Qed.

Lemma C6_witness :
  (forall k, k < informerSyncRetryCount ->
             cacheSynced envNeverSynced (syncs world0 + k) = false) /\
  fst (checkDemandCRDExists envNeverSynced world0) = false /\
  informer (ldi (snd (checkDemandCRDExists envNeverSynced world0))) = None.
Proof.
  pose proof (C6_failed_sync_keeps_polling envNeverSynced world0
                (fun _ _ => eq_refl)) as H.
  cbv zeta in H. destruct H as (H1 & H2 & _).
  split; [intros k _; reflexivity|]. split; [exact H1|exact H2].
Defined.

Lemma C7_witness :
  crdCheck envDiscoveryError (checks world0)
  = (false, Some (apiError "connection refused")) /\
  fst (checkDemandCRDExists envDiscoveryError world0) = false.
Proof.
  pose proof (C7_discovery_error_is_transient envDiscoveryError world0 false
                (apiError "connection refused") eq_refl) as H.
  cbv zeta in H. destruct H as (H1 & _).
  split; [reflexivity|]. rewrite H1. reflexivity.
Defined.

Lemma C8_witness :
  crdCheck envAbsent (checks world0) = (false, None) /\
  fst (checkDemandCRDExists envAbsent world0) = false /\
  retried envAbsent 2 (snd (emit (NewTicker time.Minute) world0))
          (snd (runLoop envAbsent 2 (snd (emit (NewTicker time.Minute) world0)))) /\
  fst (Run envAbsent 1 world0) = Running /\
  count isCRDCheck (trace (snd (Run envAbsent 1 world0))) = 1 /\
  fst (Run envAbsent 3 world0) = Returned None.
Proof.
  destruct (C8_polls_every_minute_until_cancelled envAbsent)
    as (_ & _ & Habs & _ & Htick & Hdone).
  specialize (Habs world0 eq_refl). cbv zeta in Habs. destruct Habs as (H1 & _).
  pose (W0 := snd (emit (NewTicker time.Minute) world0)).
  pose (S1 := snd (selectDoneOrTick envAbsent W0)).
  pose (T1 := snd (checkDemandCRDExists envAbsent S1)).
  pose (S2 := snd (selectDoneOrTick envAbsent T1)).
  pose (T2 := snd (checkDemandCRDExists envAbsent S2)).
  assert (Hr : retried envAbsent 2 W0 (snd (runLoop envAbsent 2 W0))).
  { replace (snd (runLoop envAbsent 2 W0)) with T2 by (vm_compute; reflexivity).
    apply (retried_S envAbsent 1 W0 S1 T1 T2);
      [vm_compute; reflexivity|vm_compute; reflexivity|].
    apply (retried_S envAbsent 0 T1 S2 T2 T2);
      [vm_compute; reflexivity|vm_compute; reflexivity|].
    apply retried_O. }
  assert (Hsel : selectDoneOrTick envAbsent W0 = (TickC, S1))
    by (vm_compute; reflexivity).
  assert (Hc : crdCheck envAbsent (checks S1) = (false, None))
    by (vm_compute; reflexivity).
  pose proof (Htick 0 0 world0 W0 S1 (retried_O envAbsent W0) Hsel Hc) as Ht.
  cbv zeta in Ht. destruct Ht as (Ht & _).
  assert (Hd : selectCase envAbsent
                 (selects (snd (runLoop envAbsent 2 W0))) = CtxDone)
    by (vm_compute; reflexivity).
  pose proof (Hdone 2 0 world0 _ Hr Hd) as Hret.
  split; [reflexivity|]. split; [rewrite H1; reflexivity|].
  split; [exact Hr|].
  split; [change (0 + 1) with 1 in Ht; rewrite Ht; reflexivity|].
  split; [change (0 + 1) with 1 in Ht; rewrite Ht; vm_compute; reflexivity|].
  change (2 + 1) with 3 in Hret. rewrite Hret. reflexivity.
Defined.

Lemma C10_witness :
  selectCase envCancelled (selects world0) = CtxDone /\
  fst (Run envCancelled 1 world0) = Returned None /\
  checks (snd (Run envCancelled 1 world0)) = 0.
Proof.
  destruct (C10_no_check_before_first_tick envCancelled) as (_ & H).
  specialize (H 0 world0 eq_refl). destruct H as (H1 & H2 & _).
  split; [reflexivity|]. split; [rewrite H1; reflexivity|exact H2].
Defined.

Lemma C5_witness :
  deliver (StartDemandGC hasSparkRole 7 (mkPodInformer []) 9)
          (UpdateEvent driverPending driverBound)
  = [mkCall 7 9 driverBound "DemandGC"].
Proof.
  destruct (C5_one_delete_per_scheduling_update hasSparkRole 7 9
              (UpdateEvent driverPending driverBound))
    as [(o & n & E & _ & _ & _ & _ & H)|[_ H]].
  - inversion E; subst. exact H.
  - vm_compute in H. discriminate H.
Defined.

Section RetryTrace.
Variable env : Env.

Ltac unfold_init :=
  unfold initializeInformer, Do, syncAttempt; cbn;
  unfold bind, callWaitForCacheSync, retryWait, setLock, setFactory,
    setInformer, getLDI, putLDI, emit, ret; cbn.

Ltac leaf :=
  eexists; split;
  [ repeat rewrite <- app_assoc; cbn [app]; reflexivity
  | unfold count; cbn; repeat split; try lia;
    try (intros; (reflexivity || discriminate));
    ((left; reflexivity) || (right; reflexivity)) ].

(** What a call of [initializeInformer] adds to the trace, in every
    environment: the start of the factory, then between one and five
    waits for the cache, with a wait of the retrier after each but the
    last, or after the last too when that wait is cut short; the call
    returns nil exactly when the last of these events is a wait for the
    cache that succeeded. *)
Lemma initializeInformer_trace w :
  exists evs,
    trace (snd (initializeInformer env w)) = trace w ++ FactoryStart :: evs /\
    forallb isRetryEvent evs = true /\
    1 <= count isSyncAttempt evs <= 5 /\
    count isRetryWait evs <= 4 /\
    count isRetryWait evs <= count isSyncAttempt evs <= S (count isRetryWait evs) /\
    (fst (initializeInformer env w) = None <->
     last evs FactoryStart = WaitForCacheSync informerSyncTimeout true) /\
    (fst (initializeInformer env w) = None \/
     fst (initializeInformer env w) = Some timeoutError).
Proof.
  unfold_init.
  destruct (cacheSynced env (syncs w)); cbn; [leaf|].
  destruct (backoffElapsed env (waits w)); cbn; [|leaf].
  destruct (cacheSynced env (S (syncs w))); cbn; [leaf|].
  destruct (backoffElapsed env (S (waits w))); cbn; [|leaf].
  destruct (cacheSynced env (S (S (syncs w)))); cbn; [leaf|].
  destruct (backoffElapsed env (S (S (waits w)))); cbn; [|leaf].
  destruct (cacheSynced env (S (S (S (syncs w))))); cbn; [leaf|].
  destruct (backoffElapsed env (S (S (S (waits w))))); cbn; [|leaf].
  destruct (cacheSynced env (S (S (S (S (syncs w)))))); cbn; leaf.
Qed.

Ltac inst H j :=
  let Hj := fresh "Hj" in
  pose proof (H j ltac:(lia)) as Hj;
  rewrite ?Nat.add_succ_r, ?Nat.add_0_r in Hj.

Ltac use_oracles :=
  repeat (match goal with
          | H : cacheSynced env _ = _ |- _ => rewrite H
          | H : backoffElapsed env _ = _ |- _ => rewrite H
          end; cbn).

Ltac count_trace :=
  unfold count; repeat rewrite <- app_assoc; rewrite filter_app, length_app;
  cbn; lia.

(** X4.  When the first wait for the cache that succeeds is attempt number
    [k + 1] of a call of [initializeInformer] (the [k] attempts before it
    failed and the backoffs after them elapsed), the call stops retrying
    there: it has made [k + 1] attempts and [k] retrier waits, returns nil
    and has published the informer of the factory. *)
Theorem initializeInformer_succeeds_at k w :
  k < informerSyncRetryCount ->
  (forall j, j < k ->
             cacheSynced env (syncs w + j) = false /\
             backoffElapsed env (waits w + j) = true) ->
  cacheSynced env (syncs w + k) = true ->
  let r := initializeInformer env w in
  fst r = None /\
  count isSyncAttempt (trace (snd r)) = count isSyncAttempt (trace w) + S k /\
  count isRetryWait (trace (snd r)) = count isRetryWait (trace w) + k /\
  syncs (snd r) = syncs w + S k /\
  waits (snd r) = waits w + k /\
  informer (ldi (snd r)) = Some (Demands (factoryId (informerFactory (ldi w)))).
Proof.
  unfold informerSyncRetryCount. intros Hk Hpre Hok.
  rewrite ?Nat.add_succ_r, ?Nat.add_0_r in Hok. cbv zeta.
  destruct k as [|[|[|[|[|k]]]]]; [| | | | |lia].
  - rewrite ?Nat.add_succ_r, ?Nat.add_0_r in Hok.
    unfold_init. use_oracles. repeat split; try lia; count_trace.
  - inst Hpre 0. destruct Hj. rewrite ?Nat.add_succ_r, ?Nat.add_0_r in Hok.
    unfold_init. use_oracles. repeat split; try lia; count_trace.
  - inst Hpre 0. inst Hpre 1. destruct Hj, Hj0.
    rewrite ?Nat.add_succ_r, ?Nat.add_0_r in Hok.
    unfold_init. use_oracles. repeat split; try lia; count_trace.
  - inst Hpre 0. inst Hpre 1. inst Hpre 2. destruct Hj, Hj0, Hj1.
    rewrite ?Nat.add_succ_r, ?Nat.add_0_r in Hok.
    unfold_init. use_oracles. repeat split; try lia; count_trace.
  - inst Hpre 0. inst Hpre 1. inst Hpre 2. inst Hpre 3. destruct Hj, Hj0, Hj1, Hj2.
    rewrite ?Nat.add_succ_r, ?Nat.add_0_r in Hok.
    unfold_init. use_oracles. repeat split; try lia; count_trace.
Qed.

(** X5.  When the context is cancelled during the retrier's wait number
    [k + 1] of a call of [initializeInformer] (the [k + 1] attempts made
    until then failed and the [k] earlier waits elapsed), the
    call gives up there: it has made [k + 1] attempts, returns the timeout
    error of the last one and leaves the field [informer] alone. *)
Theorem initializeInformer_cancelled_at k w :
  S k < informerSyncRetryCount ->
  (forall j, j <= k -> cacheSynced env (syncs w + j) = false) ->
  (forall j, j < k -> backoffElapsed env (waits w + j) = true) ->
  backoffElapsed env (waits w + k) = false ->
  let r := initializeInformer env w in
  fst r = Some timeoutError /\
  count isSyncAttempt (trace (snd r)) = count isSyncAttempt (trace w) + S k /\
  count isRetryWait (trace (snd r)) = count isRetryWait (trace w) + S k /\
  syncs (snd r) = syncs w + S k /\
  waits (snd r) = waits w + S k /\
  informer (ldi (snd r)) = informer (ldi w).
Proof.
  unfold informerSyncRetryCount. intros Hk Hs Hb Hcut. cbv zeta.
  rewrite ?Nat.add_succ_r, ?Nat.add_0_r in Hcut.
  destruct k as [|[|[|[|k]]]]; [| | | |lia].
  - inst Hs 0.
    rewrite ?Nat.add_succ_r, ?Nat.add_0_r in Hcut.
    unfold_init. use_oracles. repeat split; try lia; count_trace.
  - inst Hs 0. inst Hs 1. inst Hb 0.
    rewrite ?Nat.add_succ_r, ?Nat.add_0_r in Hcut.
    unfold_init. use_oracles. repeat split; try lia; count_trace.
  - inst Hs 0. inst Hs 1. inst Hs 2. inst Hb 0. inst Hb 1.
    rewrite ?Nat.add_succ_r, ?Nat.add_0_r in Hcut.
    unfold_init. use_oracles. repeat split; try lia; count_trace.
  - inst Hs 0. inst Hs 1. inst Hs 2. inst Hs 3. inst Hb 0. inst Hb 1. inst Hb 2.
    rewrite ?Nat.add_succ_r, ?Nat.add_0_r in Hcut.
    unfold_init. use_oracles. repeat split; try lia; count_trace.
Qed.

Lemma last_cons_default (A : Type) (l : list A) (x d d' : A) :
  last (x :: l) d = last (x :: l) d'.
Proof.
  revert x. induction l as [|y l IH]; intros x; [reflexivity|].
  change (last (y :: l) d = last (y :: l) d'). apply IH.
Qed.

Lemma last_app_cons (A : Type) (l l' : list A) (a d : A) :
  last (l ++ a :: l') d = last l' a.
Proof.
  induction l as [|x l IH]; cbn [app].
  - destruct l' as [|y l']; [reflexivity|].
    change (last (y :: l') d = last (y :: l') a). apply last_cons_default.
  - destruct (l ++ a :: l') eqn:E; [destruct l; discriminate|].
    rewrite <- IH. reflexivity.
Qed.

(** X3.  In every environment a call of [initializeInformer] starts the
    factory and then makes at least one and at most
    [informerSyncRetryCount] waits for the cache and at most one retrier
    wait fewer than that, a retrier wait following each attempt but the
    last, or the last too when that wait is cut short; it does nothing
    else that the environment sees. *)
Theorem initializeInformer_retry_bounds w :
  exists evs,
    trace (snd (initializeInformer env w)) = trace w ++ FactoryStart :: evs /\
    forallb isRetryEvent evs = true /\
    1 <= count isSyncAttempt evs <= informerSyncRetryCount /\
    count isRetryWait evs <= informerSyncRetryCount - 1 /\
    count isRetryWait evs <= count isSyncAttempt evs <= S (count isRetryWait evs).
Proof.
  destruct (initializeInformer_trace w) as (evs & E & F & Ha & Hw & Hrel & _).
  exists evs. unfold informerSyncRetryCount. cbn [Nat.sub]. auto.
Qed.

(** X6.  A call of [initializeInformer] returns nil exactly when the last
    thing it did was a wait for the cache that succeeded; in every other
    case, a cancelled context included, what it returns is the timeout
    error. *)
Theorem initializeInformer_nil_iff_synced_last w :
  let r := initializeInformer env w in
  (fst r = None <->
   last (trace (snd r)) FactoryStart = WaitForCacheSync informerSyncTimeout true) /\
  (fst r <> None -> fst r = Some timeoutError).
Proof.
  cbv zeta.
  destruct (initializeInformer_trace w) as (evs & E & _ & _ & _ & _ & Hiff & Hor).
  rewrite E, last_app_cons. split; [exact Hiff|].
  intros Hn. destruct Hor as [H|H]; [contradiction|exact H].
Qed.

End RetryTrace.

Section RunTrace.
Variable env : Env.

(** ** Counting the events of a run *)

Lemma count_app p (l l' : list Event) :
  count p (l ++ l') = count p l + count p l'.
Proof. unfold count. rewrite filter_app, length_app. reflexivity. Qed.

Lemma count_none p q (l : list Event) :
  (forall e, q e = true -> p e = false) ->
  forallb q l = true -> count p l = 0.
Proof.
  intros Hpq. unfold count. induction l as [|e l IH]; [reflexivity|].
  cbn. intros H. apply andb_prop in H. destruct H as [He Hl].
  rewrite (Hpq e He). exact (IH Hl).
Qed.

Lemma retry_events_counts evs :
  forallb isRetryEvent evs = true ->
  count isCRDCheck evs = 0 /\ count isRecvTick evs = 0 /\
  count isFactoryStart evs = 0.
Proof.
  intros H. repeat split; apply (count_none _ isRetryEvent); try exact H;
    intros [] He; try reflexivity; discriminate He.
Qed.

(** What one call of [checkDemandCRDExists] adds to the trace. *)
Lemma checkDemandCRDExists_trace w :
  exists evs,
    trace (snd (checkDemandCRDExists env w)) = trace w ++ evs /\
    count isCRDCheck evs = 1 /\
    count isRecvTick evs = 0 /\
    count isSyncAttempt evs <= 5 /\
    count isRetryWait evs <= 4 /\
    count isFactoryStart evs <= 1.
Proof.
  rewrite checkDemandCRDExists_eq.
  destruct (crdCheck env (checks w)) as [isReady [e|]].
  - eexists. split; [reflexivity|]. unfold count. cbn. repeat split; lia.
  - destruct isReady.
    + destruct (initializeInformer_trace env (atInitialize env w))
        as (evs & E & F & Ha & Hw & _).
      destruct (retry_events_counts evs F) as (C1 & C2 & C3).
      destruct (initializeInformer env (atInitialize env w)) as [[e|] w'];
        cbn [snd fst trace emit] in *; rewrite E; unfold atInitialize; cbn [trace].
      * exists ([CheckCRDExists (demandCRDName env) true None;
                 LogInfo "demand CRD has been initialized. Demand resources can now be created";
                 FactoryStart] ++ evs ++ [LogError "failed initializing demand informer"]).
        split; [rewrite <- !app_assoc; reflexivity|].
        rewrite !count_app. unfold count in *. cbn. repeat split; lia.
      * exists ([CheckCRDExists (demandCRDName env) true None;
                 LogInfo "demand CRD has been initialized. Demand resources can now be created";
                 FactoryStart] ++ evs).
        split; [rewrite <- !app_assoc; reflexivity|].
        rewrite !count_app. unfold count in *. cbn. repeat split; lia.
    + eexists. split; [reflexivity|]. unfold count. cbn. repeat split; lia.
Qed.

(** What the loop of [Run] adds to the trace in [fuel] iterations. *)
Lemma runLoop_trace fuel :
  forall w, exists evs,
    trace (snd (runLoop env fuel w)) = trace w ++ evs /\
    forallb fromLoop evs = true /\
    count isRecvTick evs <= fuel /\
    count isCRDCheck evs = count isRecvTick evs /\
    count isSyncAttempt evs <= 5 * count isRecvTick evs /\
    count isRetryWait evs <= 4 * count isRecvTick evs /\
    count isFactoryStart evs <= count isRecvTick evs.
Proof.
  induction fuel as [|fuel IH]; intros w.
  - exists []. cbn. rewrite app_nil_r. unfold count. cbn. repeat split; lia.
  - destruct (select_cases env w) as [[Hc Hs]|[Hc Hs]].
    + rewrite (runLoop_done env fuel w Hc). exists [RecvDone].
      unfold count. cbn. repeat split; lia.
    + rewrite (runLoop_tick env fuel w _ Hs).
      match goal with |- context [checkDemandCRDExists env ?w1] =>
        destruct (checkDemandCRDExists_trace w1) as (evs1 & E1 & K1 & T1 & S1 & W1 & F1);
        destruct (quiet_checkDemandCRDExists env w1) as (evs1' & E1' & Q1);
        destruct (checkDemandCRDExists env w1) as [[|] w2] end;
        cbn [fst snd trace] in *;
        rewrite E1 in E1'; apply app_inv_head in E1'; subst evs1'.
      * exists (RecvTick :: evs1). split; [rewrite E1, <- app_assoc; reflexivity|].
        split; [cbn; exact Q1|].
        change (RecvTick :: evs1) with ([RecvTick] ++ evs1).
        rewrite !count_app. unfold count in *. cbn. repeat split; lia.
      * destruct (IH w2) as (evs2 & E2 & Q2 & B2 & K2 & S2 & W2 & F2).
        exists (RecvTick :: evs1 ++ evs2).
        split; [rewrite E2, E1, <- !app_assoc; reflexivity|].
        split; [cbn; rewrite forallb_app, Q1, Q2; reflexivity|].
        change (RecvTick :: evs1 ++ evs2) with ([RecvTick] ++ evs1 ++ evs2).
        rewrite !count_app. unfold count in *. cbn. repeat split; lia.
Qed.

Lemma Run_trace fuel w :
  exists evs,
    trace (snd (Run env fuel w)) = trace w ++ evs /\
    count isRecvTick evs <= fuel /\
    count isCRDCheck evs = count isRecvTick evs /\
    count isSyncAttempt evs <= 5 * count isRecvTick evs /\
    count isRetryWait evs <= 4 * count isRecvTick evs /\
    count isFactoryStart evs <= count isRecvTick evs.
Proof.
  rewrite Run_eq. cbv zeta.
  match goal with |- context [runLoop env fuel ?w0] =>
    destruct (runLoop_trace fuel w0) as (evs & E & _ & B & K & S & W & F);
    destruct (runLoop env fuel w0) as [[err|] w1] end; cbn [fst snd trace] in *.
  - exists ([NewTicker time.Minute] ++ evs ++ [TickerStop]).
    split; [rewrite E, <- !app_assoc; reflexivity|].
    rewrite !count_app. unfold count in *. cbn. repeat split; lia.
  - exists ([NewTicker time.Minute] ++ evs).
    split; [rewrite E, <- !app_assoc; reflexivity|].
    rewrite !count_app. unfold count in *. cbn. repeat split; lia.
Qed.

(** X9.  Over any stretch of a call of [Run], still looping or returned,
    the discovery queries made are as many as the ticks received: a tick
    always leads to exactly one query, and no query is made without one. *)
Theorem Run_one_query_per_tick fuel w :
  exists evs,
    trace (snd (Run env fuel w)) = trace w ++ evs /\
    count isCRDCheck evs = count isRecvTick evs.
Proof.
  destruct (Run_trace fuel w) as (evs & E & _ & K & _).
  exists evs. auto.
Qed.

(** X10.  Over any stretch of a call of [Run], for each tick received the
    factory is started at most once, at most [informerSyncRetryCount]
    waits for the cache are made and at most one retrier wait fewer. *)
Theorem Run_work_per_tick_bounded fuel w :
  exists evs,
    trace (snd (Run env fuel w)) = trace w ++ evs /\
    count isFactoryStart evs <= count isRecvTick evs /\
    count isSyncAttempt evs <= informerSyncRetryCount * count isRecvTick evs /\
    count isRetryWait evs <= (informerSyncRetryCount - 1) * count isRecvTick evs.
Proof.
  destruct (Run_trace fuel w) as (evs & E & _ & _ & S & W & F).
  exists evs. unfold informerSyncRetryCount. cbn [Nat.sub]. auto.
Qed.

(** ** The handle over a call of [Run] *)

Lemma select_ldi w : ldi (snd (selectDoneOrTick env w)) = ldi w.
Proof. reflexivity. Qed.

(** Retried iterations leave the handle and the factory's identity alone
    and only add to the trace. *)
Lemma retried_frame n :
  forall w wn,
    retried env n w wn ->
    informer (ldi wn) = informer (ldi w) /\
    factoryId (informerFactory (ldi wn)) = factoryId (informerFactory (ldi w)) /\
    exists evs, trace wn = trace w ++ evs.
Proof.
  induction n as [|n IH]; intros w wn H; inversion H as [|n' w' w1 w2 w3 Hs Hk Hr]; subst.
  - repeat split. exists []. rewrite app_nil_r. reflexivity.
  - destruct (IH _ _ Hr) as (Hi & Hf & evs & E).
    destruct (checkDemandCRDExists_ldi env w1) as (_ & Hf1 & Hi1).
    destruct (quiet_checkDemandCRDExists env w1) as (evs1 & E1 & _).
    rewrite Hk in Hf1, Hi1, E1. cbn [fst snd] in *.
    rewrite select_eq in Hs. inversion Hs as [[Hc Hw1]]. clear Hs.
    assert (Hl : ldi w1 = ldi w) by (rewrite <- Hw1; reflexivity).
    assert (Ht : trace w1 = trace w ++ [RecvTick])
      by (rewrite <- Hw1; cbn [trace]; rewrite Hc; reflexivity).
    rewrite Hi, Hi1, Hf, Hf1, Hl. repeat split.
    exists ([RecvTick] ++ evs1 ++ evs). rewrite E, E1, Ht, <- !app_assoc. reflexivity.
Qed.

(** A loop that has not returned after [fuel] iterations has retried them
    all. *)
Lemma runLoop_running fuel :
  forall w w', runLoop env fuel w = (Running, w') -> retried env fuel w w'.
Proof.
  induction fuel as [|fuel IH]; intros w w' H.
  - inversion H. constructor.
  - destruct (select_cases env w) as [[Hc Hs]|[Hc Hs]].
    + rewrite (runLoop_done env fuel w Hc) in H. discriminate H.
    + rewrite (runLoop_tick env fuel w _ Hs) in H.
      destruct (checkDemandCRDExists env _) as [[|] w2] eqn:Hk; cbn [fst snd] in H.
      * discriminate H.
      * econstructor; [exact Hs|exact Hk|exact (IH _ _ H)].
Qed.

(** X7.  A call of [Run] touches the handle only when it returns because a
    tick found the CRD and the cache synced.  While it is looping the field
    [informer] is what it was before the call; when it returns after
    receiving from [ctx.Done()], likewise (nil, for a watcher never
    initialized); otherwise the last thing it did before stopping the
    ticker was a wait for the cache that succeeded, and the field holds the
    informer of the factory. *)
Theorem Run_handle fuel w :
  (fst (Run env fuel w) = Running ->
   informer (ldi (snd (Run env fuel w))) = informer (ldi w)) /\
  (forall err w',
      Run env fuel w = (Returned err, w') ->
      (exists evs,
          trace w' = trace w ++ evs ++ [RecvDone; TickerStop] /\
          informer (ldi w') = informer (ldi w)) \/
      (exists evs,
          trace w' =
          trace w ++ evs ++ [WaitForCacheSync informerSyncTimeout true; TickerStop] /\
          informer (ldi w') =
          Some (Demands (factoryId (informerFactory (ldi w)))))).
Proof.
  split.
  - rewrite Run_eq. cbv zeta.
    match goal with |- context [runLoop env fuel ?w0] =>
      destruct (runLoop env fuel w0) as [[err|] w1] eqn:HL end;
      cbn [fst snd]; [discriminate|]. intros _.
    destruct (retried_frame _ _ _ (runLoop_running _ _ _ HL)) as (Hi & _).
    exact Hi.
  - intros err w' H.
    destruct (Run_returned env fuel w err w' H) as (wl & HL & ->).
    destruct (runLoop_returned env fuel _ _ _ HL) as (_ & n & wn & _ & Hr & Hx).
    destruct (retried_frame _ _ _ Hr) as (Hi & Hf & evs & E).
    cbn [snd emit ldi trace] in Hi, Hf, E |- *.
    destruct Hx as [Hs|(w1 & Hs & Hk)].
    + left. rewrite select_eq in Hs. inversion Hs as [[Hc Hwl]].
      cbn [ldi trace]. exists ([NewTicker time.Minute] ++ evs).
      split; [rewrite Hc, E, <- !app_assoc; reflexivity|exact Hi].
    + right. rewrite select_eq in Hs. inversion Hs as [[Hc Hw1]]. clear Hs.
      destruct (checkDemandCRDExists_ldi env w1) as (_ & _ & Hi1).
      rewrite Hk in Hi1. cbn [fst snd] in Hi1.
      apply checkDemandCRDExists_true in Hk. destruct Hk as [_ Hinit].
      destruct (initializeInformer_trace env (atInitialize env w1))
        as (evs1 & E1 & _ & _ & _ & _ & Hiff & _).
      rewrite Hinit in E1, Hiff. cbn [fst snd] in E1, Hiff.
      assert (Hlast : last evs1 FactoryStart
                      = WaitForCacheSync informerSyncTimeout true)
        by (apply Hiff; reflexivity).
      assert (Hne : evs1 <> []) by (intros ->; discriminate Hlast).
      rewrite (app_removelast_last FactoryStart Hne), Hlast in E1.
      exists ([NewTicker time.Minute] ++ evs ++
              [RecvTick; CheckCRDExists (demandCRDName env) true None;
               LogInfo "demand CRD has been initialized. Demand resources can now be created";
               FactoryStart] ++ removelast evs1).
      split.
      * rewrite E1. unfold atInitialize. cbn [trace]. rewrite <- Hw1. cbn [trace checks].
        rewrite Hc, E. repeat (rewrite <- ?app_assoc; cbn [app]). reflexivity.
      * rewrite Hi1, <- Hw1. cbn [ldi]. rewrite Hf. reflexivity.
Qed.

(** ** States that stay so *)

(** X1.  In no reachable state of the watcher is the channel that [Ready]
    returns closed: whatever has been called and however it went, the
    channel is open. *)
Theorem reachable_ready_open b w :
  reachable env b w -> fst (Ready w) = Open /\ ready (ldi w) = Open.
Proof.
  intros H. assert (Hr : ready (ldi w) = Open).
  { induction H as [f a d|b w e H IH|b w H IH|b w H IH|b w H IH|b w H IH|b w H IH];
      try exact IH; try reflexivity.
    - rewrite initializeInformer_ldi. exact IH.
    - destruct (checkDemandCRDExists_ldi env w) as (Hr & _). rewrite Hr. exact IH. }
  split; exact Hr.
Qed.

Lemma checkDemandCRDExists_lock w :
  lock (ldi w) = Unlocked ->
  lock (ldi (snd (checkDemandCRDExists env w))) = Unlocked.
Proof.
  intros H. rewrite checkDemandCRDExists_eq.
  destruct (crdCheck env (checks w)) as [isReady [e|]]; [exact H|].
  destruct isReady; [|exact H].
  pose proof (initializeInformer_ldi env (atInitialize env w)) as Hl.
  destruct (initializeInformer env (atInitialize env w)) as [[e|] w2];
    cbn [snd emit ldi] in *; rewrite Hl; reflexivity.
Qed.

(** X2.  In every reachable state of the watcher the mutex is free: each
    of [Informer], [initializeInformer] and [checkDemandCRDExists] has
    released it when it returns, on its error paths as on the others. *)
Theorem reachable_mutex_free b w :
  reachable env b w -> lock (ldi w) = Unlocked.
Proof.
  induction 1 as [f a d|b w e H IH|b w H IH|b w H IH|b w H IH|b w H IH|b w H IH];
    try exact IH; try reflexivity.
  - rewrite initializeInformer_ldi. reflexivity.
  - exact (checkDemandCRDExists_lock w IH).
Qed.

Lemma runLoop_published fuel :
  forall w,
    informer (ldi w) = Some (Demands (factoryId (informerFactory (ldi w)))) ->
    informer (ldi (snd (runLoop env fuel w))) = informer (ldi w).
Proof.
  induction fuel as [|fuel IH]; intros w Hp; [reflexivity|].
  destruct (select_cases env w) as [[Hc Hs]|[Hc Hs]].
  - rewrite (runLoop_done env fuel w Hc). reflexivity.
  - rewrite (runLoop_tick env fuel w _ Hs).
    match goal with |- context [checkDemandCRDExists env ?w1] =>
      destruct (checkDemandCRDExists_ldi env w1) as (_ & Hf & Hi);
      destruct (checkDemandCRDExists env w1) as [[|] w2] end;
      cbn [fst snd ldi] in *.
    + rewrite Hi. symmetry. exact Hp.
    + rewrite IH; [exact Hi|]. rewrite Hi, Hf. exact Hp.
Qed.

(** X8.  Once the informer has been published, [Informer()] keeps
    returning that same non-nil informer: a later call of
    [initializeInformer] or [checkDemandCRDExists], whether it succeeds or
    fails, and a later call of [Run], for as long as it runs, leave the
    handle as it is. *)
Theorem published_handle_is_stable fuel w :
  reachable env true w ->
  fst (Informer w) <> None /\
  fst (Informer (snd (initializeInformer env w))) = fst (Informer w) /\
  fst (Informer (snd (checkDemandCRDExists env w))) = fst (Informer w) /\
  fst (Informer (snd (Run env fuel w))) = fst (Informer w).
Proof.
  intros H. pose proof (reachable_informer env true w H) as Hp. cbn in Hp.
  rewrite !Informer_eq. cbn [fst].
  split; [rewrite Hp; discriminate|]. split; [|split].
  - rewrite initializeInformer_ldi. cbv zeta. cbn [informer].
    destruct (fst (initializeInformer env w)); [reflexivity|].
    symmetry. exact Hp.
  - destruct (checkDemandCRDExists_ldi env w) as (_ & _ & Hi). rewrite Hi.
    destruct (fst (checkDemandCRDExists env w)); [symmetry; exact Hp|reflexivity].
  - rewrite Run_eq. cbv zeta.
    match goal with |- context [runLoop env fuel ?w0] =>
      pose proof (runLoop_published fuel w0 Hp) as HL;
      destruct (runLoop env fuel w0) as [[err|] w1] end; cbn [fst snd ldi] in *;
      exact HL.
Qed.

End RunTrace.

Section ReclaimerLife.

Variable IsSparkSchedulerPod : v1.Pod -> bool.
Variables (c cache : nat).


Lemma deliver_update oldPod newPod :
  deliver (demandGCOnly IsSparkSchedulerPod c cache) (UpdateEvent oldPod newPod) =
  if IsSparkSchedulerPod newPod && IsSparkSchedulerPod oldPod
     && negb (utils.isPodScheduled oldPod) && utils.isPodScheduled newPod
  then [mkCall c cache newPod "DemandGC"] else [].
Proof.
  unfold demandGCOnly, deliver, StartDemandGC, AddEventHandler. cbn.
  unfold clientcache.OnUpdate, clientcache.OnAdd, clientcache.OnDelete,
    utils.OnPodScheduled, DeleteDemandIfExists. cbn.
  destruct (IsSparkSchedulerPod newPod), (IsSparkSchedulerPod oldPod),
    (utils.isPodScheduled oldPod), (utils.isPodScheduled newPod); reflexivity.
Qed.

(** Nothing is deleted for a pod that is scheduled from the start. *)
Lemma deliverAll_scheduled versions :
  forall pod,
    utils.isPodScheduled pod = true ->
    staysScheduled pod versions = true ->
    deliverAll (demandGCOnly IsSparkSchedulerPod c cache) (updates pod versions) = [].
Proof.
  induction versions as [|next versions IH]; intros pod Hs Hk; [reflexivity|].
  cbn [staysScheduled] in Hk. rewrite Hs in Hk. cbn [implb] in Hk.
  apply andb_prop in Hk. destruct Hk as [Hn Hk].
  cbn [updates]. unfold deliverAll. cbn [flat_map]. rewrite deliver_update, Hs.
  rewrite andb_false_r. cbn [andb app]. exact (IH next Hn Hk).
Qed.

(** X11.  Over the whole life of a pod whose scheduling, once made, is
    kept, the handler registered by [StartDemandGC] calls
    [DeleteDemandIfExists] at most once, and then for a version of the pod
    that is scheduled and passes the filter; and it does call it when the
    pod starts unscheduled, ends scheduled and passes the filter in all
    its versions. *)
Theorem at_most_one_delete_per_pod pod versions :
  staysScheduled pod versions = true ->
  let calls := deliverAll (demandGCOnly IsSparkSchedulerPod c cache) (updates pod versions) in
  (calls = [] \/
   exists p, In p versions /\ utils.isPodScheduled p = true /\
             IsSparkSchedulerPod p = true /\
             calls = [mkCall c cache p "DemandGC"]) /\
  (forallb IsSparkSchedulerPod (pod :: versions) = true ->
   utils.isPodScheduled pod = false ->
   utils.isPodScheduled (last versions pod) = true ->
   calls <> []).
Proof.
  cbv zeta. revert pod.
  induction versions as [|next versions IH]; intros pod Hk.
  - split; [left; reflexivity|]. cbn. intros _ H1 H2. congruence.
  - cbn [staysScheduled] in Hk. apply andb_prop in Hk. destruct Hk as [Himp Hk].
    cbn [updates]. unfold deliverAll. cbn [flat_map]. fold (deliverAll (demandGCOnly IsSparkSchedulerPod c cache) (updates next versions)).
    rewrite deliver_update.
    destruct (IH next Hk) as [IH1 IH2].
    destruct (utils.isPodScheduled pod) eqn:Hp.
    + cbn [implb] in Himp. rewrite andb_false_r. cbn [andb app].
      rewrite (deliverAll_scheduled versions next Himp Hk).
      split; [left; reflexivity|]. intros _ H. discriminate H.
    + destruct (utils.isPodScheduled next) eqn:Hn.
      * rewrite (deliverAll_scheduled versions next Hn Hk), app_nil_r.
        destruct (IsSparkSchedulerPod next) eqn:Fn;
          destruct (IsSparkSchedulerPod pod) eqn:Fp; cbn [andb negb].
        -- split; [right; exists next; cbn; auto|]. intros _ _ _. discriminate.
        -- split; [left; reflexivity|]. cbn. rewrite Fp. discriminate.
        -- split; [left; reflexivity|]. cbn. rewrite Fp, Fn. discriminate.
        -- split; [left; reflexivity|]. cbn. rewrite Fp. discriminate.
      * rewrite !andb_false_r. cbn [app]. split.
        -- destruct IH1 as [E|(p & Hin & Hps & Hpf & E)]; [left; exact E|right].
           exists p. cbn [In]. auto.
        -- intros Hall _ Hlast. apply IH2.
           ++ cbn [forallb] in Hall |- *. apply andb_prop in Hall. tauto.
           ++ reflexivity.
           ++ destruct versions as [|v vs]; [cbn in Hlast; congruence|].
              change (last (next :: v :: vs) pod) with (last (v :: vs) pod) in Hlast.
              rewrite (last_cons_default _ vs v next pod). exact Hlast.
Qed.

End ReclaimerLife.

Section FactoryStarts.
Variable env : Env.

Lemma retry_events_no_ready_check evs :
  forallb isRetryEvent evs = true -> count isReadyCheck evs = 0.
Proof.
  apply (count_none _ isRetryEvent).
  intros [] He; try reflexivity; discriminate He.
Qed.

Lemma checkDemandCRDExists_starts w :
  exists evs,
    trace (snd (checkDemandCRDExists env w)) = trace w ++ evs /\
    count isFactoryStart evs = count isReadyCheck evs.
Proof.
  rewrite checkDemandCRDExists_eq.
  destruct (crdCheck env (checks w)) as [isReady [e|]].
  - eexists. split; [reflexivity|]. unfold count. cbn. destruct isReady; reflexivity.
  - destruct isReady.
    + destruct (initializeInformer_trace env (atInitialize env w))
        as (evs & E & F & _).
      destruct (retry_events_counts evs F) as (_ & _ & C3).
      pose proof (retry_events_no_ready_check evs F) as C4.
      destruct (initializeInformer env (atInitialize env w)) as [[e|] w'];
        cbn [snd fst trace emit] in *; rewrite E; unfold atInitialize; cbn [trace].
      * exists ([CheckCRDExists (demandCRDName env) true None;
                 LogInfo "demand CRD has been initialized. Demand resources can now be created";
                 FactoryStart] ++ evs ++ [LogError "failed initializing demand informer"]).
        split; [rewrite <- !app_assoc; reflexivity|].
        rewrite !count_app. unfold count in *. cbn. lia.
      * exists ([CheckCRDExists (demandCRDName env) true None;
                 LogInfo "demand CRD has been initialized. Demand resources can now be created";
                 FactoryStart] ++ evs).
        split; [rewrite <- !app_assoc; reflexivity|].
        rewrite !count_app. unfold count in *. cbn. lia.
    + eexists. split; [reflexivity|]. unfold count. cbn. reflexivity.
Qed.

Lemma runLoop_starts fuel :
  forall w, exists evs,
    trace (snd (runLoop env fuel w)) = trace w ++ evs /\
    count isFactoryStart evs = count isReadyCheck evs.
Proof.
  induction fuel as [|fuel IH]; intros w.
  - exists []. cbn. rewrite app_nil_r. split; reflexivity.
  - destruct (select_cases env w) as [[Hc Hs]|[Hc Hs]].
    + rewrite (runLoop_done env fuel w Hc). exists [RecvDone]. split; reflexivity.
    + rewrite (runLoop_tick env fuel w _ Hs).
      match goal with |- context [checkDemandCRDExists env ?w1] =>
        destruct (checkDemandCRDExists_starts w1) as (evs1 & E1 & K1);
        destruct (checkDemandCRDExists env w1) as [[|] w2] end;
        cbn [fst snd trace] in *.
      * exists ([RecvTick] ++ evs1). split; [rewrite E1, <- app_assoc; reflexivity|].
        rewrite !count_app. unfold count in *. cbn. lia.
      * destruct (IH w2) as (evs2 & E2 & K2).
        exists ([RecvTick] ++ evs1 ++ evs2).
        split; [rewrite E2, E1, <- !app_assoc; reflexivity|].
        rewrite !count_app. unfold count in *. cbn. lia.
Qed.

(** X12.  Over any stretch of a call of [Run], the factory is started as
    many times as a discovery query found the CRD established without
    error: [Run] starts the informer only once the CRD is known to be
    there, and starts it again at every later tick that finds it there. *)
Theorem Run_starts_factory_when_CRD_ready fuel w :
  exists evs,
    trace (snd (Run env fuel w)) = trace w ++ evs /\
    count isFactoryStart evs = count isReadyCheck evs.
Proof.
  rewrite Run_eq. cbv zeta.
  match goal with |- context [runLoop env fuel ?w0] =>
    destruct (runLoop_starts fuel w0) as (evs & E & K);
    destruct (runLoop env fuel w0) as [[err|] w1] end; cbn [fst snd trace] in *.
  - exists ([NewTicker time.Minute] ++ evs ++ [TickerStop]).
    split; [rewrite E, <- !app_assoc; reflexivity|].
    rewrite !count_app. unfold count in *. cbn. lia.
  - exists ([NewTicker time.Minute] ++ evs).
    split; [rewrite E, <- !app_assoc; reflexivity|].
    rewrite !count_app. unfold count in *. cbn. lia.
Qed.

End FactoryStarts.

(** * The further theorems at work in the example environments *)

Lemma reachable_after_sync :
  reachable envSynced true (snd (initializeInformer envSynced world0)).
Proof.
  replace true
    with (false || match fst (initializeInformer envSynced world0) with
                   | None => true
                   | Some _ => false
                   end)
    by (vm_compute; reflexivity).
  apply reach_initializeInformer. unfold world0. apply reach_new.
Qed.

Lemma reachable_ready_open_witness :
  reachable envSynced true (snd (initializeInformer envSynced world0)) /\
  fst (Ready (snd (initializeInformer envSynced world0))) = Open.
Proof.
  split; [exact reachable_after_sync|].
  exact (proj1 (reachable_ready_open envSynced true _ reachable_after_sync)).
Defined.

Lemma reachable_mutex_free_witness :
  reachable envSynced true (snd (initializeInformer envSynced world0)) /\
  lock (ldi (snd (initializeInformer envSynced world0))) = Unlocked.
Proof.
  split; [exact reachable_after_sync|].
  exact (reachable_mutex_free envSynced true _ reachable_after_sync).
Defined.

Lemma initializeInformer_succeeds_at_witness :
  2 < informerSyncRetryCount /\
  cacheSynced envLate (syncs world0 + 2) = true /\
  fst (initializeInformer envLate world0) = None /\
  syncs (snd (initializeInformer envLate world0)) = 3.
Proof.
  assert (Hpre : forall j, j < 2 ->
                   cacheSynced envLate (syncs world0 + j) = false /\
                   backoffElapsed envLate (waits world0 + j) = true).
  { intros [|[|j]] Hj; [split; reflexivity|split; reflexivity|lia]. }
  assert (Hk : 2 < informerSyncRetryCount) by (unfold informerSyncRetryCount; lia).
  pose proof (initializeInformer_succeeds_at envLate 2 world0 Hk Hpre eq_refl) as H.
  cbv zeta in H. destruct H as (H1 & _ & _ & H4 & _).
  split; [exact Hk|]. split; [reflexivity|]. split; [exact H1|exact H4].
Defined.

Lemma initializeInformer_cancelled_at_witness :
  1 < informerSyncRetryCount /\
  backoffElapsed envCancelledMidRetry (waits world0 + 0) = false /\
  fst (initializeInformer envCancelledMidRetry world0) = Some timeoutError /\
  syncs (snd (initializeInformer envCancelledMidRetry world0)) = 1.
Proof.
  assert (Hk : 1 < informerSyncRetryCount) by (unfold informerSyncRetryCount; lia).
  assert (Hb : forall j, j < 0 ->
                 backoffElapsed envCancelledMidRetry (waits world0 + j) = true)
    by (intros j Hj; lia).
  pose proof (initializeInformer_cancelled_at envCancelledMidRetry 0 world0 Hk
                (fun _ _ => eq_refl) Hb eq_refl) as H.
  cbv zeta in H. destruct H as (H1 & _ & _ & H4 & _).
  split; [exact Hk|]. split; [reflexivity|]. split; [exact H1|exact H4].
Defined.

Lemma initializeInformer_nil_iff_synced_last_witness :
  fst (initializeInformer envNeverSynced world0) <> None /\
  fst (initializeInformer envNeverSynced world0) = Some timeoutError.
Proof.
  assert (Hn : fst (initializeInformer envNeverSynced world0) <> None)
    by (vm_compute; discriminate).
  split; [exact Hn|].
  exact (proj2 (initializeInformer_nil_iff_synced_last envNeverSynced world0) Hn).
Defined.

Lemma Run_handle_witness :
  Run envCancelled 1 world0 = (Returned None, snd (Run envCancelled 1 world0)) /\
  ((exists evs,
       trace (snd (Run envCancelled 1 world0))
       = trace world0 ++ evs ++ [RecvDone; TickerStop] /\
       informer (ldi (snd (Run envCancelled 1 world0))) = informer (ldi world0)) \/
   (exists evs,
       trace (snd (Run envCancelled 1 world0))
       = trace world0 ++ evs
         ++ [WaitForCacheSync informerSyncTimeout true; TickerStop] /\
       informer (ldi (snd (Run envCancelled 1 world0)))
       = Some (Demands (factoryId (informerFactory (ldi world0)))))).
Proof.
  assert (H : Run envCancelled 1 world0
              = (Returned None, snd (Run envCancelled 1 world0)))
    by (vm_compute; reflexivity).
  split; [exact H|].
  exact (proj2 (Run_handle envCancelled 1 world0) None _ H).
Defined.

Lemma published_handle_is_stable_witness :
  reachable envSynced true (snd (initializeInformer envSynced world0)) /\
  fst (Informer (snd (Run envSynced 3 (snd (initializeInformer envSynced world0)))))
  = fst (Informer (snd (initializeInformer envSynced world0))).
Proof.
  split; [exact reachable_after_sync|].
  exact (proj2 (proj2 (proj2
           (published_handle_is_stable envSynced 3 _ reachable_after_sync)))).
Defined.

Lemma at_most_one_delete_per_pod_witness :
  staysScheduled driverPending [driverPending; driverBound; driverBound] = true /\
  deliverAll (demandGCOnly hasSparkRole 7 9)
             (updates driverPending [driverPending; driverBound; driverBound])
  <> [].
Proof.
  assert (Hk : staysScheduled driverPending [driverPending; driverBound; driverBound]
               = true) by reflexivity.
  split; [exact Hk|].
  exact (proj2 (at_most_one_delete_per_pod hasSparkRole 7 9 driverPending
                  [driverPending; driverBound; driverBound] Hk)
               eq_refl eq_refl eq_refl).
Defined.
